(** * AQI predictor: AQI calculator, feature engineering and trainer

    A shallow embedding of [src/data/collector.py], [src/features/engineer.py]
    and [src/models/trainer.py].

    A pandas column of dtype float64 is a list of cells, a cell being
    [option Q]: [None] is NaN (a missing value) and [Some q] a number.
    Arithmetic on cells is exact rational arithmetic; the binary64 rounding
    of the Python floats is not part of the model.  The two scalar
    functions of the collector are given a second time on binary64
    floats ([Binary64]), to evaluate them as Python does. *)

From Stdlib Require Import String Bool Arith ZArith QArith Qround Lqa Lia List.
From Stdlib Require Import Sorted Permutation.
From Stdlib Require Floats.
Import ListNotations.

(** ** pandas primitives used by the pipeline *)

Module Pandas.

Local Open Scope Q_scope.

Abbreviation cell := (option Q).

(** [s.dropna()]: the numbers of a column, in order. *)
Fixpoint dropna (s : list cell) : list Q :=
  match s with
  | [] => []
  | None :: t => dropna t
  | Some q :: t => q :: dropna t
  end.

(** [s.count()]: how many cells are not missing. *)
Definition count (s : list cell) : nat := length (dropna s).

Definition Qsum (l : list Q) : Q := fold_right Qplus 0 l.

Definition Qnat (n : nat) : Q := inject_Z (Z.of_nat n).

(** The arithmetic mean of a list of numbers; NaN on the empty list. *)
Definition average (vs : list Q) : cell :=
  match vs with
  | [] => None
  | _ => Some (Qsum vs / Qnat (length vs))
  end.

(** [s.mean()], [s.max()], [s.min()] with the default [skipna=True]. *)
Definition mean (s : list cell) : cell := average (dropna s).

Definition Qmax (a b : Q) : Q := if Qle_bool a b then b else a.
Definition Qmin (a b : Q) : Q := if Qle_bool a b then a else b.

Definition max (s : list cell) : cell :=
  match dropna s with
  | [] => None
  | v :: vs => Some (fold_left Qmax vs v)
  end.

Definition min (s : list cell) : cell :=
  match dropna s with
  | [] => None
  | v :: vs => Some (fold_left Qmin vs v)
  end.

(** The sum of squared deviations from the mean and the variance
    [s.var(ddof)]: missing unless more than [ddof] numbers are present. *)
Definition sqdev (vs : list Q) : Q :=
  let m := Qsum vs / Qnat (length vs) in
  Qsum (map (fun x => (x - m) * (x - m)) vs).

Definition var (ddof : nat) (s : list cell) : cell :=
  let vs := dropna s in
  if (length vs <=? ddof)%nat then None
  else Some (sqdev vs / Qnat (length vs - ddof)).

(** [np.round(x)]: to the nearest integer, a tie going to the even one. *)
Definition round_half_even (q : Q) : Z :=
  let f := Qfloor q in
  match Qcompare (q - inject_Z f) (1 # 2) with
  | Lt => f
  | Gt => (f + 1)%Z
  | Eq => if Z.even f then f else (f + 1)%Z
  end.

(** [x.round(2)] on a number and on a cell. *)
Definition round2 (q : Q) : Q := inject_Z (round_half_even (q * 100)) / 100.

Definition round2_cell (v : cell) : cell := option_map round2 v.

(** [round(sqrt(v), 2)] for [0 <= v].  A square root is irrational in
    general, so the root and the rounding are taken together:
    [t] is the integer part of [200 * sqrt v], and [sqrt v] lies in the
    half-cent [[t/200, (t+1)/200)]. *)
Definition sqrt_round2 (v : Q) : Q :=
  let x := v * 40000 in
  let t := Z.sqrt (Qfloor x) in
  let m := (t / 2)%Z in
  let tie := Qeq_bool (inject_Z (t * t)) x in
  let k := if Z.even t then m
           else if tie && Z.even m then m
           else (m + 1)%Z in
  inject_Z k / 100.

(** [s.std(ddof).round(2)]. *)
Definition std_round2 (ddof : nat) (s : list cell) : cell :=
  option_map sqrt_round2 (var ddof s).

(** Python's [enumerate]. *)
Definition enumerate {A} (l : list A) : list (nat * A) :=
  combine (seq 0 (length l)) l.

(** [s.shift(periods)]: row [i] takes the value of row [i - periods];
    NaN where that row does not exist. *)
Definition shift (periods : Z) (s : list cell) : list cell :=
  map (fun i =>
         let j := (Z.of_nat i - periods)%Z in
         if (j <? 0)%Z then None else nth (Z.to_nat j) s None)
      (seq 0 (length s)).

(** [s.rolling(w).mean()]: the window of row [i] is rows [i-w+1 .. i]
    cut at the start of the column, and [min_periods] defaults to [w]:
    the result is NaN unless the window holds [w] numbers. *)
Definition rolling_window (w i : nat) (s : list cell) : list cell :=
  let lo := (i + 1 - w)%nat in
  firstn (i + 1 - lo) (skipn lo s).

Definition rolling_mean (w : nat) (s : list cell) : list cell :=
  map (fun i =>
         let win := rolling_window w i s in
         if (count win <? w)%nat then None else mean win)
      (seq 0 (length s)).

(** [df.groupby(key)[col]]: the cells of [col] on the rows whose key is
    [k], in the order of the frame. *)
Fixpoint group (keys : list Z) (col : list cell) (k : Z) : list cell :=
  match keys, col with
  | k' :: keys', v :: col' =>
      if (k' =? k)%Z then v :: group keys' col' k else group keys' col' k
  | _, _ => []
  end.

(** [.transform(f)] with [f] returning a scalar: every row receives the
    value of [f] on its own group. *)
Definition groupby_transform (keys : list Z) (col : list cell)
    (f : list cell -> cell) : list cell :=
  map (fun k => f (group keys col k)) keys.

(** The group keys of [groupby] (default [sort=True]): each key once,
    ascending. *)
Fixpoint insert_key (k : Z) (ks : list Z) : list Z :=
  match ks with
  | [] => [k]
  | h :: t =>
      if (k <? h)%Z then k :: ks
      else if (k =? h)%Z then ks
      else h :: insert_key k t
  end.

Definition group_keys (keys : list Z) : list Z :=
  fold_right insert_key [] keys.

End Pandas.

(** ** [src/data/collector.py] *)

Module Collector.

Import Pandas.
Local Open Scope Q_scope.
Local Open Scope string_scope.

(** The body of the loop of [calculate_aqi]: the chain of comparisons for
    a number, and the whole body for a cell. *)
Definition aqi_band (value : Q) : Q :=
  if Qle_bool value 12.0 then value * (50 / 12.0)
  else if Qle_bool value 35.4 then 50 + (value - 12.1) * (50 / 23.3)
  else if Qle_bool value 55.4 then 100 + (value - 35.5) * (50 / 19.9)
  else if Qle_bool value 150.4 then 150 + (value - 55.5) * (50 / 94.9)
  else if Qle_bool value 250.4 then 200 + (value - 150.5) * (100 / 99.9)
  else 300 + (value - 250.5) * (200 / 249.9).

Definition aqi_of (value : cell) : cell :=
  match value with
  | None => None
  | Some value => Some (aqi_band value)
  end.

(** [aqi[i] = v] on the result array. *)
Fixpoint array_set (a : list cell) (i : nat) (v : cell) : list cell :=
  match a, i with
  | [], _ => []
  | _ :: t, O => v :: t
  | h :: t, S j => h :: array_set t j v
  end.

(** [calculate_aqi]: an array of zeros, filled in index by index. *)
Definition calculate_aqi (pm25 : list cell) : list cell :=
  fold_left (fun aqi iv => array_set aqi (fst iv) (aqi_of (snd iv)))
            (enumerate pm25)
            (repeat (Some 0) (length pm25)).

Definition get_aqi_category (aqi : cell) : string :=
  match aqi with
  | None => "Unknown"
  | Some aqi =>
      if Qle_bool aqi 50 then "Good"
      else if Qle_bool aqi 100 then "Moderate"
      else if Qle_bool aqi 150 then "Unhealthy for Sensitive"
      else if Qle_bool aqi 200 then "Unhealthy"
      else if Qle_bool aqi 300 then "Very Unhealthy"
      else "Hazardous"
  end.

End Collector.

(** ** The calculator on binary64 floats

    The loop body of [calculate_aqi] and [get_aqi_category] with the
    arithmetic and the comparisons of Python's [float]. *)

Module Binary64.

Import Floats.PrimFloat.
Local Open Scope string_scope.
Local Open Scope float_scope.
#[local] Set Warnings "-inexact-float".

Definition aqi_of (value : float) : float :=
  if is_nan value then nan
  else if value <=? 12.0 then value * (50 / 12.0)
  else if value <=? 35.4 then 50 + (value - 12.1) * (50 / 23.3)
  else if value <=? 55.4 then 100 + (value - 35.5) * (50 / 19.9)
  else if value <=? 150.4 then 150 + (value - 55.5) * (50 / 94.9)
  else if value <=? 250.4 then 200 + (value - 150.5) * (100 / 99.9)
  else 300 + (value - 250.5) * (200 / 249.9).

Definition get_aqi_category (aqi : float) : string :=
  if is_nan aqi then "Unknown"
  else if aqi <=? 50 then "Good"
  else if aqi <=? 100 then "Moderate"
  else if aqi <=? 150 then "Unhealthy for Sensitive"
  else if aqi <=? 200 then "Unhealthy"
  else if aqi <=? 300 then "Very Unhealthy"
  else "Hazardous".

End Binary64.

(** ** [src/features/engineer.py] *)

Module Engineer.

Import Pandas.
Local Open Scope string_scope.
Local Open Scope Z_scope.

(** A row of the collected frame, with the columns the feature engineer
    reads.  [timestamp] counts the seconds of the (naive, local) time
    since 1970-01-01 00:00. *)
Record Obs := {
  timestamp : Z;
  pm2_5 : cell;
  pm10 : cell;
  ozone : cell;
  aqi : cell
}.

(** [.dt.date] as a day number, [.dt.hour], [.dt.dayofweek] (Monday is 0;
    day 0 was a Thursday) and [.dt.month]. *)
Definition date_of (ts : Z) : Z := ts / 86400.

Definition hour_of (ts : Z) : Z := (ts mod 86400) / 3600.

Definition dayofweek (d : Z) : Z := (d + 3) mod 7.

Definition month_of (d : Z) : Z :=
  let z := d + 719468 in
  let doe := z mod 146097 in
  let yoe := (doe - doe / 1460 + doe / 36524 - doe / 146096) / 365 in
  let doy := doe - (365 * yoe + yoe / 4 - yoe / 100) in
  let mp := (5 * doy + 2) / 153 in
  if mp <? 10 then mp + 3 else mp - 9.

Definition day_name_of (d : Z) : string :=
  match dayofweek d with
  | 0 => "Monday"
  | 1 => "Tuesday"
  | 2 => "Wednesday"
  | 3 => "Thursday"
  | 4 => "Friday"
  | 5 => "Saturday"
  | _ => "Sunday"
  end.

(** A row of the frame [create_features] returns: the input row and the
    columns added to it. *)
Record HourlyRow := {
  obs : Obs;
  hour : Z;
  day_of_week : Z;
  month : Z;
  is_weekend : Z;
  pm2_5_lag_1h : cell;
  pm2_5_lag_24h : cell;
  pm2_5_6h_avg : cell;
  pm2_5_24h_avg : cell;
  date : Z;
  daily_avg_aqi : cell;
  next_day_avg_aqi : cell
}.

(** Reading row [i] of a column. *)
Definition at_row (col : list cell) (i : nat) : cell := nth i col None.

Definition create_features (df : list Obs) : list HourlyRow :=
  let lag_1h := shift 1 (map pm2_5 df) in
  let lag_24h := shift 24 (map pm2_5 df) in
  let avg_6h := rolling_mean 6 (map pm2_5 df) in
  let avg_24h := rolling_mean 24 (map pm2_5 df) in
  let dates := map (fun r => date_of (timestamp r)) df in
  let daily_avg := groupby_transform dates (map aqi df) mean in
  let next_day :=
    groupby_transform dates (map aqi df) (fun x => mean (shift (-24) x)) in
  map (fun ir =>
         let i := fst ir in
         let r := snd ir in
         let dow := dayofweek (date_of (timestamp r)) in
         {| obs := r;
            hour := hour_of (timestamp r);
            day_of_week := dow;
            month := month_of (date_of (timestamp r));
            is_weekend := if (dow =? 5) || (dow =? 6) then 1 else 0;
            pm2_5_lag_1h := at_row lag_1h i;
            pm2_5_lag_24h := at_row lag_24h i;
            pm2_5_6h_avg := at_row avg_6h i;
            pm2_5_24h_avg := at_row avg_24h i;
            date := date_of (timestamp r);
            daily_avg_aqi := at_row daily_avg i;
            next_day_avg_aqi := at_row next_day i |})
      (enumerate df).

(** A row of the frame [create_daily_data] returns. *)
Module Daily.
Record Row := {
  date : Z;
  daily_avg_aqi : cell;
  daily_max_aqi : cell;
  daily_min_aqi : cell;
  daily_std_aqi : cell;
  pm2_5_mean : cell;
  pm10_mean : cell;
  ozone_mean : cell;
  day_of_week : Z;
  day_name : string;
  prev_day_aqi : cell;
  prev_week_aqi : cell;
  next_day_aqi : cell
}.
End Daily.

(** [df.groupby('date').agg(...)] for one column and one aggregation:
    one cell per date, dates ascending.  [create_daily_data] rounds the
    cells to 2 decimals; its aggregation ['std'] is pandas' [std] with
    the default [ddof=1]. *)
Definition agg (df : list HourlyRow) (col : HourlyRow -> cell)
    (f : list cell -> cell) : list cell :=
  map (fun k => f (group (map date df) (map col df) k))
      (group_keys (map date df)).

Definition create_daily_data (df : list HourlyRow) : list Daily.Row :=
  let aqi_mean := map round2_cell (agg df (fun r => aqi (obs r)) mean) in
  let aqi_max := map round2_cell (agg df (fun r => aqi (obs r)) max) in
  let aqi_min := map round2_cell (agg df (fun r => aqi (obs r)) min) in
  let aqi_std := agg df (fun r => aqi (obs r)) (std_round2 1) in
  let pm2_5_mean := map round2_cell (agg df (fun r => pm2_5 (obs r)) mean) in
  let pm10_mean := map round2_cell (agg df (fun r => pm10 (obs r)) mean) in
  let ozone_mean := map round2_cell (agg df (fun r => ozone (obs r)) mean) in
  let prev_day := shift 1 aqi_mean in
  let prev_week := shift 7 aqi_mean in
  let next_day := shift (-1) aqi_mean in
  map (fun ik =>
         let i := fst ik in
         let k := snd ik in
         {| Daily.date := k;
            Daily.daily_avg_aqi := at_row aqi_mean i;
            Daily.daily_max_aqi := at_row aqi_max i;
            Daily.daily_min_aqi := at_row aqi_min i;
            Daily.daily_std_aqi := at_row aqi_std i;
            Daily.pm2_5_mean := at_row pm2_5_mean i;
            Daily.pm10_mean := at_row pm10_mean i;
            Daily.ozone_mean := at_row ozone_mean i;
            Daily.day_of_week := dayofweek k;
            Daily.day_name := day_name_of k;
            Daily.prev_day_aqi := at_row prev_day i;
            Daily.prev_week_aqi := at_row prev_week i;
            Daily.next_day_aqi := at_row next_day i |})
      (enumerate (group_keys (map date df))).

End Engineer.

(** ** [src/models/trainer.py] *)

Module Trainer.

Import Pandas.
Local Open Scope string_scope.

(** A raised exception, by the name of its class. *)
Record exn := Raise { exc_class : string }.

(** A method of an object: it reads the state [S] and chooses between an
    exception and a result with the new state.  An exception leaves the
    state as it was when it was raised. *)
Definition M (S A : Type) : Type := S -> (exn + A) * S.

Definition ret {S A} (a : A) : M S A := fun s => (inr a, s).

Definition raise {S A} (e : exn) : M S A := fun s => (inl e, s).

Definition bind {S A B} (m : M S A) (k : A -> M S B) : M S B :=
  fun s =>
    match m s with
    | (inl e, s') => (inl e, s')
    | (inr a, s') => k a s'
    end.

Notation "x <- m ;; k" := (bind m (fun x => k))
  (at level 61, m at next level, right associativity).

(** A numeric feature table: its column names and its rows. *)
Record Frame := {
  columns : list string;
  rows : list (list Q)
}.

(** [train_test_split(X, y, test_size=0.2, shuffle=False)] of
    scikit-learn.  The sizes are those of its [_validate_shuffle_split]:
    [n_test = ceil(0.2 * n_samples)], [n_train = n_samples - n_test], and
    an empty train set is refused with a [ValueError]; so are [X] and [y]
    of different lengths.  Without shuffling the first [n_train] rows are
    the train set and the following [n_test] rows the test set. *)
Definition n_test_of (n_samples : nat) : nat :=
  Z.to_nat (Qceiling (0.2 * Qnat n_samples)).

Definition validate_shuffle_split (n_samples : nat) : exn + (nat * nat) :=
  let n_test := n_test_of n_samples in
  let n_train := (n_samples - n_test)%nat in
  if (n_train =? 0)%nat then inl (Raise "ValueError")
  else inr (n_train, n_test).

Definition train_test_split (X : list (list Q)) (y : list Q)
    : exn + (list (list Q) * list (list Q) * list Q * list Q) :=
  if negb (length X =? length y)%nat then inl (Raise "ValueError")
  else
    match validate_shuffle_split (length X) with
    | inl e => inl e
    | inr (n_train, n_test) =>
        inr (firstn n_train X, firstn n_test (skipn n_train X),
             firstn n_train y, firstn n_test (skipn n_train y))
    end.

(** [sort_values('importance', ascending=False)]: the larger importance
    first; rows of equal importance stay in the order of the table, each
    row being placed in front of the sorted rows that follow it unless one
    of them has a strictly larger importance. *)
Fixpoint insert_desc (x : string * Q) (l : list (string * Q))
    : list (string * Q) :=
  match l with
  | [] => [x]
  | h :: t => if Qle_bool (snd h) (snd x) then x :: l
              else h :: insert_desc x t
  end.

Definition sort_desc (l : list (string * Q)) : list (string * Q) :=
  fold_right insert_desc [] l.

Section Model.

(** The regressor and the metrics are scikit-learn's: a fitted forest is
    an opaque value, and fitting, predicting and scoring are functions of
    their arguments (the seed is fixed: [random_state=42]).  The table of
    importances is built from two columns, which [pd.DataFrame] refuses
    with a [ValueError] when they differ in length. *)
Variable Forest : Type.
Variable fit : list (list Q) -> list Q -> Forest.
Variable forest_predict : Forest -> list (list Q) -> list Q.
Variable feature_importances_ : Forest -> list Q.
Variable mean_absolute_error : list Q -> list Q -> Q.
Variable mean_squared_error : list Q -> list Q -> Q.
Variable np_sqrt : Q -> Q.

(** [r2_score] is a float that may be NaN (it is on a test set of one
    row). *)
Variable r2_score : list Q -> list Q -> cell.

(** The operating system: the exception, if any, with which
    [os.makedirs("models", exist_ok=True)] followed by [joblib.dump] to a
    file name is refused, given the names of the files written so far (a
    missing directory, a name that is a directory, no permission). *)
Variable dump_error : list string -> string -> option exn.

(** The fitted regressor: the forest and the column names it saw when it
    was fitted (scikit-learn's [feature_names_in_]). *)
Record Regressor := {
  forest : Forest;
  feature_names_in_ : list string
}.

(** The attributes of a [SimpleAQIModel]: [model] is [None] until the
    regressor is fitted. *)
Record SimpleAQIModel := {
  model : option Regressor;
  feature_importance : option (list (string * Q))
}.

(** [SimpleAQIModel()]. *)
Definition init : SimpleAQIModel :=
  {| model := None; feature_importance := None |}.

(** The process: the object and the files written by [save]. *)
Record World := {
  self : SimpleAQIModel;
  files : list (string * SimpleAQIModel)
}.

Definition split (X : Frame) (y : list Q)
    : M World (list (list Q) * list (list Q) * list Q * list Q) :=
  fun w =>
    match train_test_split (rows X) y with
    | inl e => (inl e, w)
    | inr parts => (inr parts, w)
    end.

Definition set_model (f : Regressor) : M World unit :=
  fun w =>
    (inr tt,
     {| self := {| model := Some f;
                   feature_importance := feature_importance (self w) |};
        files := files w |}).

Definition set_feature_importance (t : list (string * Q)) : M World unit :=
  fun w =>
    (inr tt,
     {| self := {| model := model (self w); feature_importance := Some t |};
        files := files w |}).

Definition train (X : Frame) (y : list Q) : M World (Q * Q * cell) :=
  parts <- split X y ;;
  let '(X_train, X_test, y_train, y_test) := parts in
  let f := fit X_train y_train in
  _ <- set_model {| forest := f; feature_names_in_ := columns X |} ;;
  let y_pred := forest_predict f X_test in
  let mae := mean_absolute_error y_test y_pred in
  let rmse := np_sqrt (mean_squared_error y_test y_pred) in
  let r2 := r2_score y_test y_pred in
  _ <- (if (length (columns X) =? length (feature_importances_ f))%nat
        then set_feature_importance
               (sort_desc (combine (columns X) (feature_importances_ f)))
        else raise (Raise "ValueError")) ;;
  ret (mae, rmse, r2).

Definition save (filename : string) : M World unit :=
  fun w =>
    match dump_error (map fst (files w)) filename with
    | Some e => (inl e, w)
    | None =>
        (inr tt, {| self := self w; files := (filename, self w) :: files w |})
    end.

(** The script at the end of the file, on a given table: train, then
    save under the default file name. *)
Definition train_and_save (X : Frame) (y : list Q) : M World unit :=
  _ <- train X y ;;
  save "models/aqi_model.joblib".

(** [predict]: the regressor's own [predict], which refuses an estimator
    that was never fitted with a [NotFittedError], and a frame whose
    columns are not the ones it was fitted on with a [ValueError]. *)
Definition predict (X : Frame) : M World (list Q) :=
  fun w =>
    match model (self w) with
    | None => (inl (Raise "NotFittedError"), w)
    | Some r =>
        if list_eq_dec string_dec (columns X) (feature_names_in_ r)
        then (inr (forest_predict (forest r) (rows X)), w)
        else (inl (Raise "ValueError"), w)
    end.

(** The file of a name: the last one written under it, if any. *)
Fixpoint lookup_file (filename : string)
    (fs : list (string * SimpleAQIModel)) : option SimpleAQIModel :=
  match fs with
  | [] => None
  | (name, data) :: fs' =>
      if String.eqb name filename then Some data
      else lookup_file filename fs'
  end.

(** [load]: when the file exists, both attributes are taken from it and
    the answer is [True]; otherwise the object is untouched and the answer
    is [False]. *)
Definition load (filename : string) : M World bool :=
  fun w =>
    match lookup_file filename (files w) with
    | Some data =>
        (inr true,
         {| self := {| model := model data;
                       feature_importance := feature_importance data |};
            files := files w |})
    | None => (inr false, w)
    end.

End Model.

End Trainer.

(** ** [app/dashboard.py]

    The pure parts of [main]: the category and colour of the current
    index, and the health recommendation looked up for the category. *)

Module Dashboard.

Import Pandas.
Local Open Scope Q_scope.
Local Open Scope string_scope.

(** The chain of comparisons on [current_aqi].  Every comparison with NaN
    is false, so a NaN falls through to the last branch. *)
Definition category_color (current_aqi : cell) : string * string :=
  match current_aqi with
  | None => ("Very Unhealthy", "#8B5CF6")
  | Some current_aqi =>
      if Qle_bool current_aqi 50 then ("Good", "#10B981")
      else if Qle_bool current_aqi 100 then ("Moderate", "#F59E0B")
      else if Qle_bool current_aqi 150
           then ("Unhealthy for Sensitive", "#F97316")
      else if Qle_bool current_aqi 200 then ("Unhealthy", "#EF4444")
      else ("Very Unhealthy", "#8B5CF6")
  end.

Definition recommendations : list (string * string) :=
  [("Good", "✅ Perfect for outdoor activities.");
   ("Moderate",
    "⚠️ Unusually sensitive people should consider reducing prolonged outdoor exertion.");
   ("Unhealthy for Sensitive",
    "⚠️ People with respiratory or heart disease, children and older adults should limit prolonged outdoor exertion.");
   ("Unhealthy",
    "❌ Everyone should reduce prolonged or heavy outdoor exertion.");
   ("Very Unhealthy",
    "❌ Everyone should avoid prolonged outdoor exertion.");
   ("Hazardous", "🚨 Everyone should avoid all outdoor activities.")].

(** [d.get(key, default)]. *)
Fixpoint dict_get (d : list (string * string)) (key default : string)
    : string :=
  match d with
  | [] => default
  | (k, v) :: d' => if String.eqb k key then v else dict_get d' key default
  end.

(** The text passed to [st.info]. *)
Definition recommendation (current_aqi : cell) : string :=
  dict_get recommendations (fst (category_color current_aqi))
           "Check local health advisories.".

End Dashboard.

Import Pandas Collector Engineer.

(** * Properties *)

(** ** Statements used below *)

Open Scope Q_scope.

(** Two cells hold the same value: both missing, or equal numbers. *)
Definition cell_eq (a b : cell) : Prop :=
  match a, b with
  | None, None => True
  | Some x, Some y => x == y
  | _, _ => False
  end.

(** The concentrations strictly between the upper threshold of a band and
    the anchor of the next one. *)
Definition in_gap (c : Q) : Prop :=
  (12.0 < c /\ c < 12.1) \/ (35.4 < c /\ c < 35.5) \/
  (55.4 < c /\ c < 55.5) \/ (150.4 < c /\ c < 150.5) \/
  (250.4 < c /\ c < 250.5).

(** The band of a concentration: how many upper thresholds lie below it. *)
Definition band_of (c : Q) : nat :=
  if Qle_bool c 12.0 then 0
  else if Qle_bool c 35.4 then 1
  else if Qle_bool c 55.4 then 2
  else if Qle_bool c 150.4 then 3
  else if Qle_bool c 250.4 then 4
  else 5.

(** The line of a band: the concentration and the index of its anchor,
    and its slope. *)
Definition band_anchor (b : nat) : Q * Q :=
  match b with
  | 0%nat => (0, 0)
  | 1%nat => (12.1, 50)
  | 2%nat => (35.5, 100)
  | 3%nat => (55.5, 150)
  | 4%nat => (150.5, 200)
  | _ => (250.5, 300)
  end.

Definition band_slope (b : nat) : Q :=
  match b with
  | 0%nat => 50 / 12.0
  | 1%nat => 50 / 23.3
  | 2%nat => 50 / 19.9
  | 3%nat => 50 / 94.9
  | 4%nat => 100 / 99.9
  | _ => 200 / 249.9
  end.

Definition band_line (b : nat) (c : Q) : Q :=
  snd (band_anchor b) + (c - fst (band_anchor b)) * band_slope b.

(** A frame of [n] hourly observations from midnight of day 0, for the
    examples: hour [i] has [pm2_5 = i] and the index computed from it. *)
Definition sample_obs (i : nat) : Obs :=
  {| timestamp := 3600 * Z.of_nat i;
     pm2_5 := Some (Qnat i);
     pm10 := Some (2 * Qnat i);
     ozone := None;
     aqi := aqi_of (Some (Qnat i)) |}.

Definition hourly_sample (n : nat) : list Obs := map sample_obs (seq 0 n).

(** A frame of [n] half-hourly observations from midnight of day 0, 48
    to a date: row [i] has the index [i]. *)
Definition half_hourly_obs (i : nat) : Obs :=
  {| timestamp := 1800 * Z.of_nat i;
     pm2_5 := Some (Qnat i);
     pm10 := None;
     ozone := None;
     aqi := Some (Qnat i) |}.

Definition half_hourly_sample (n : nat) : list Obs :=
  map half_hourly_obs (seq 0 n).

(** The numbers of a column, the missing cells left out. *)
Definition numbers_of (s : list cell) : list Q :=
  flat_map (fun c => match c with Some q => [q] | None => [] end) s.


(** No reading of the column [pm2_5] is missing. *)
Definition pm2_5_complete (df : list Obs) : Prop :=
  Forall (fun o => pm2_5 o <> None) df.

(** The rows of a frame on the calendar date [d], and the mean index of
    the date after [d]: the label the name [next_day_avg_aqi] suggests. *)
Definition rows_on (d : Z) (df : list Obs) : list Obs :=
  filter (fun x => (date_of (timestamp x) =? d)%Z) df.

Definition following_day_mean (df : list Obs) (d : Z) : cell :=
  mean (map aqi (rows_on (d + 1) df)).

(** The index column of the hourly frame and its rows on the date [d]. *)
Definition aqi_col (r : HourlyRow) : cell := aqi (obs r).

Definition day_rows (d : Z) (df : list HourlyRow) : list HourlyRow :=
  filter (fun x => (date x =? d)%Z) df.

(** A frame with one observation per day, at midnight of days 0 to
    [n - 1]. *)
Definition daily_sample (n : nat) : list Obs :=
  map (fun d => {| timestamp := 86400 * Z.of_nat d;
                   pm2_5 := Some (Qnat d);
                   pm10 := None;
                   ozone := None;
                   aqi := aqi_of (Some (Qnat d)) |})
      (seq 0 n).

(** Three readings of one day with the index values 0, 3 and 6. *)
Definition three_readings : list Obs :=
  map (fun tc : Z * Q =>
         {| timestamp := fst tc;
            pm2_5 := Some (snd tc);
            pm10 := None;
            ozone := None;
            aqi := aqi_of (Some (snd tc)) |})
      [(0%Z, 0); (3600%Z, 0.72); (7200%Z, 1.44)].

(** A one-row table, and trivial stand-ins for the regressor and the
    metrics, to run [train] on. *)
Definition one_row : Trainer.Frame :=
  {| Trainer.columns := ["daily_avg_aqi"%string];
     Trainer.rows := [[120]] |}.

Definition fresh_world : Trainer.World unit :=
  {| Trainer.self := Trainer.init unit; Trainer.files := [] |}.

Definition train_stub :=
  Trainer.train unit (fun _ _ => tt) (fun _ X => map (fun _ => 0) X)
    (fun _ => []) (fun _ _ => 0) (fun _ _ => 0) (fun x => x)
    (fun _ _ => None).

(** The operating system that lets every file be written. *)
Definition dump_allowed (written : list string) (filename : string)
    : option Trainer.exn := None.

Definition train_and_save_stub :=
  Trainer.train_and_save unit (fun _ _ => tt) (fun _ X => map (fun _ => 0) X)
    (fun _ => []) (fun _ _ => 0) (fun _ _ => 0) (fun x => x)
    (fun _ _ => None) dump_allowed.

(** The category of a reading by the anchors of the bands, and the rank of
    a category from the mildest to the worst. *)
Definition category_of_reading (v : cell) : string :=
  match v with
  | None => "Unknown"
  | Some c =>
      if Qle_bool c 12.1 then "Good"
      else if Qle_bool c 35.5 then "Moderate"
      else if Qle_bool c 55.5 then "Unhealthy for Sensitive"
      else if Qle_bool c 150.5 then "Unhealthy"
      else if Qle_bool c 250.5 then "Very Unhealthy"
      else "Hazardous"
  end%string.

(** A reading given in tenths, as Python reads the decimal numeral: the
    binary64 float nearest to [k / 10]. *)
Definition float_of_tenths (k : Z) : Floats.PrimFloat.float :=
  Floats.PrimFloat.div
    (Floats.PrimFloat.of_uint63 (Uint63.of_Z k))
    (Floats.PrimFloat.of_uint63 (Uint63.of_Z 10)).

(** The two calculators agree on the category of the readings
    0.0, 0.1, ..., [n / 10]. *)
Definition binary64_categories_agree_upto (n : Z) : bool :=
  forallb
    (fun k =>
       String.eqb (Binary64.get_aqi_category (Binary64.aqi_of (float_of_tenths k)))
                  (category_of_reading (Some (k # 10))))
    (map Z.of_nat (seq 0 (S (Z.to_nat n)))).

Definition severity (category : string) : nat :=
  if String.eqb category "Good" then 0
  else if String.eqb category "Moderate" then 1
  else if String.eqb category "Unhealthy for Sensitive" then 2
  else if String.eqb category "Unhealthy" then 3
  else if String.eqb category "Very Unhealthy" then 4
  else if String.eqb category "Hazardous" then 5
  else 6.

(** The order of the importance table: the larger importance first. *)
Definition by_importance_desc (a b : string * Q) : Prop := snd b <= snd a.

(** A two-row table and stand-ins for the regressor giving the two
    columns the importances 1/4 and 3/4. *)
Definition two_rows : Trainer.Frame :=
  {| Trainer.columns := ["daily_avg_aqi"%string; "pm2_5_mean"%string];
     Trainer.rows := [[120; 40]; [130; 45]] |}.

Definition toy_predict (f : unit) (X : list (list Q)) : list Q :=
  map (fun _ => 0) X.

Definition toy_train :=
  Trainer.train unit (fun _ _ => tt) toy_predict
    (fun _ => [1 # 4; 3 # 4]) (fun _ _ => 0) (fun _ _ => 0) (fun x => x)
    (fun _ _ => None).

(** An object as [train] on a one-column table leaves it. *)
Definition fitted_object : Trainer.SimpleAQIModel unit :=
  {| Trainer.model :=
       Some {| Trainer.forest := tt;
               Trainer.feature_names_in_ := ["daily_avg_aqi"%string] |};
     Trainer.feature_importance := Some [("daily_avg_aqi"%string, 1)] |}.

Definition toy_train_and_save :=
  Trainer.train_and_save unit (fun _ _ => tt) toy_predict
    (fun _ => [1 # 4; 3 # 4]) (fun _ _ => 0) (fun _ _ => 0) (fun x => x)
    (fun _ _ => None) dump_allowed.

(** ** Tactics shared by the proofs *)

Lemma Qle_bool_false (a b : Q) : Qle_bool a b = false -> b < a.
Proof.
  intros H. apply Qnot_le_lt. intros Hle.
  apply Qle_bool_iff in Hle. congruence.
Qed.

(** Splitting on one comparison of the chain, keeping the order fact. *)
Ltac split_le :=
  match goal with
  | |- context [Qle_bool ?a ?b] =>
      let E := fresh "E" in
      destruct (Qle_bool a b) eqn:E;
      [apply Qle_bool_iff in E | apply Qle_bool_false in E]
  | H : context [Qle_bool ?a ?b] |- _ =>
      let E := fresh "E" in
      destruct (Qle_bool a b) eqn:E;
      [apply Qle_bool_iff in E | apply Qle_bool_false in E]
  end.

(** Splitting conjunctions and equivalences, and nothing else. *)
Ltac splits :=
  repeat match goal with
         | |- _ /\ _ => split
         | |- _ <-> _ => split
         end.

(** The slopes of the six bands, as fractions. *)
Ltac slopes :=
  try setoid_replace (50 / 12.0) with (25 # 6) by reflexivity;
  try setoid_replace (50 / 23.3) with (500 # 233) by reflexivity;
  try setoid_replace (50 / 19.9) with (500 # 199) by reflexivity;
  try setoid_replace (50 / 94.9) with (500 # 949) by reflexivity;
  try setoid_replace (100 / 99.9) with (1000 # 999) by reflexivity;
  try setoid_replace (200 / 249.9) with (2000 # 2499) by reflexivity.

(** ** The AQI calculator *)

Section Calculator.

Lemma array_set_app (pre : list cell) (z : cell) (zs : list cell) (v : cell) :
  array_set (pre ++ z :: zs) (length pre) v = pre ++ v :: zs.
Proof.
  induction pre as [|p pre IH]; simpl; [reflexivity|].
  now rewrite IH.
Qed.

Lemma calculate_aqi_fill (l pre zs : list cell) :
  length zs = length l ->
  fold_left (fun aqi iv => array_set aqi (fst iv) (aqi_of (snd iv)))
            (combine (seq (length pre) (length l)) l) (pre ++ zs)
  = pre ++ map aqi_of l.
Proof.
  revert pre zs.
  induction l as [|v l IH]; intros pre zs Hlen.
  - destruct zs; [reflexivity | discriminate].
  - destruct zs as [|z zs]; [discriminate|].
    simpl. rewrite array_set_app.
    replace (pre ++ aqi_of v :: zs) with ((pre ++ [aqi_of v]) ++ zs)
      by (rewrite <- app_assoc; reflexivity).
    replace (S (length pre)) with (length (pre ++ [aqi_of v]))
      by (rewrite length_app; simpl; lia).
    rewrite IH by (simpl in Hlen; lia).
    rewrite <- app_assoc. reflexivity.
Qed.

(** The loop of [calculate_aqi] computes the body on every element. *)
Lemma calculate_aqi_map (pm25 : list cell) :
  calculate_aqi pm25 = map aqi_of pm25.
Proof.
  unfold calculate_aqi, enumerate.
  apply (calculate_aqi_fill pm25 [] (repeat (Some 0) (length pm25))).
  apply repeat_length.
Qed.

Lemma aqi_band_drop (c1 c2 : Q) :
  0 <= c1 -> c1 <= c2 ->
  (~ in_gap c2 -> aqi_band c1 <= aqi_band c2) /\
  aqi_band c1 <= aqi_band c2 + (50 # 199).
Proof.
  intros H0 H12. unfold in_gap, aqi_band.
  repeat split_le; slopes; (split; [intros Hgap|]); lra.
Qed.

Lemma aqi_band_same_band (c1 c2 : Q) :
  c1 <= c2 -> band_of c1 = band_of c2 -> aqi_band c1 <= aqi_band c2.
Proof.
  intros H12. unfold band_of, aqi_band.
  repeat split_le; intros Hb; try discriminate Hb; slopes; lra.
Qed.

(** A reading given in tenths is in no gap. *)
Lemma tenths_strictly_between (k lo : Z) :
  inject_Z lo < inject_Z k -> inject_Z k < inject_Z (lo + 1) -> False.
Proof. rewrite <- !Zlt_Qlt. lia. Qed.

Lemma one_decimal_not_in_gap (k : Z) (c : Q) :
  c == inject_Z k / 10 -> ~ in_gap c.
Proof.
  intros Hc Hg. unfold in_gap in Hg. rewrite Hc in Hg. clear Hc.
  unfold Qdiv in Hg. change (/ 10) with (1 # 10) in Hg.
  set (K := inject_Z k) in *.
  destruct Hg as [[L U]|[[L U]|[[L U]|[[L U]|[L U]]]]].
  - apply (tenths_strictly_between k 120); fold K;
      [change (inject_Z 120) with 120 | change (inject_Z (120 + 1)) with 121];
      lra.
  - apply (tenths_strictly_between k 354); fold K;
      [change (inject_Z 354) with 354 | change (inject_Z (354 + 1)) with 355];
      lra.
  - apply (tenths_strictly_between k 554); fold K;
      [change (inject_Z 554) with 554 | change (inject_Z (554 + 1)) with 555];
      lra.
  - apply (tenths_strictly_between k 1504); fold K;
      [change (inject_Z 1504) with 1504
      | change (inject_Z (1504 + 1)) with 1505];
      lra.
  - apply (tenths_strictly_between k 2504); fold K;
      [change (inject_Z 2504) with 2504
      | change (inject_Z (2504 + 1)) with 2505];
      lra.
Qed.

Lemma nth_error_calculate_aqi (pm25 : list cell) (i : nat) (c : Q) :
  nth_error pm25 i = Some (Some c) ->
  nth_error (calculate_aqi pm25) i = Some (Some (aqi_band c)).
Proof.
  intros H. rewrite calculate_aqi_map, nth_error_map, H. reflexivity.
Qed.

Lemma aqi_band_line (c : Q) : aqi_band c == band_line (band_of c) c.
Proof.
  unfold aqi_band, band_of, band_line.
  repeat split_le; simpl; slopes; ring.
Qed.

Lemma aqi_band_in_gap (c : Q) :
  (12.0 < c /\ c < 12.1 ->
   aqi_band c <= 50 /\ (c <= 12.099 -> aqi_band c < 50)) /\
  (35.4 < c /\ c < 35.5 ->
   aqi_band c <= 100 /\ (c <= 35.499 -> aqi_band c < 100)) /\
  (55.4 < c /\ c < 55.5 ->
   aqi_band c <= 150 /\ (c <= 55.499 -> aqi_band c < 150)) /\
  (150.4 < c /\ c < 150.5 ->
   aqi_band c <= 200 /\ (c <= 150.499 -> aqi_band c < 200)) /\
  (250.4 < c /\ c < 250.5 ->
   aqi_band c <= 300 /\ (c <= 250.499 -> aqi_band c < 300)).
Proof.
  unfold aqi_band.
  repeat split_le; slopes; splits; intros [L U]; (split; [|intros M]); lra.
Qed.

Lemma aqi_band_at_thresholds :
  Forall2 Qeq (map aqi_band [12.0; 35.4; 55.4; 150.4; 250.4])
              [50; 100; 150; 200; 300].
Proof. repeat constructor; vm_compute; reflexivity. Qed.

Lemma aqi_band_rise (c1 c2 : Q) :
  0 <= c1 -> c1 <= c2 -> aqi_band c2 <= aqi_band c1 + (25 # 6) * (c2 - c1).
Proof.
  intros H0 H12. unfold aqi_band. repeat split_le; slopes; lra.
Qed.

(** C2, as amended.  [calculate_aqi] is piecewise linear: the index of a
    reading is on the line of its band, through the band's anchor
    ((0, 0), (12.1, 50), (35.5, 100), (55.5, 150), (150.5, 200),
    (250.5, 300)) with the band's slope.  On the readings [c1 <= c2] of a
    series ([0 <= c1]) it is non-decreasing when both lie in one band, and
    when [c2] is not strictly between the upper threshold of a band and
    the anchor of the next one (12.0-12.1, 35.4-35.5, 55.4-55.5,
    150.4-150.5, 250.4-250.5), as is every reading given in tenths.  At
    the five thresholds the index is 50, 100, 150, 200 and 300, and for
    [c2] inside a gap it is at most the value at the threshold of that
    gap, and below it when [c2] is at least 0.001 under the anchor.
    In every case the index of [c2] is less than that of [c1] by at most
    50/199 (the 0.1 step at a band edge times 50/19.9, the steepest slope
    above a band edge), and more by at most 25/6 (the slope 50/12 of the
    first band, the steepest of all) times [c2 - c1]: it never jumps
    upwards. *)
Theorem calculate_aqi_monotone_outside_gaps
    (pm25 : list cell) (i j : nat) (c1 c2 : Q) :
  nth_error pm25 i = Some (Some c1) ->
  nth_error pm25 j = Some (Some c2) ->
  0 <= c1 -> c1 <= c2 ->
  exists a1 a2,
    nth_error (calculate_aqi pm25) i = Some (Some a1) /\
    nth_error (calculate_aqi pm25) j = Some (Some a2) /\
    a1 == band_line (band_of c1) c1 /\
    a2 == band_line (band_of c2) c2 /\
    (band_of c1 = band_of c2 -> a1 <= a2) /\
    (~ in_gap c2 -> a1 <= a2) /\
    (forall k : Z, c2 == inject_Z k / 10 -> a1 <= a2) /\
    Forall2 Qeq (map aqi_band [12.0; 35.4; 55.4; 150.4; 250.4])
                [50; 100; 150; 200; 300] /\
    ((12.0 < c2 /\ c2 < 12.1 -> a2 <= 50 /\ (c2 <= 12.099 -> a2 < 50)) /\
     (35.4 < c2 /\ c2 < 35.5 -> a2 <= 100 /\ (c2 <= 35.499 -> a2 < 100)) /\
     (55.4 < c2 /\ c2 < 55.5 -> a2 <= 150 /\ (c2 <= 55.499 -> a2 < 150)) /\
     (150.4 < c2 /\ c2 < 150.5 ->
      a2 <= 200 /\ (c2 <= 150.499 -> a2 < 200)) /\
     (250.4 < c2 /\ c2 < 250.5 ->
      a2 <= 300 /\ (c2 <= 250.499 -> a2 < 300))) /\
    a1 <= a2 + (50 # 199) /\
    a2 <= a1 + (25 # 6) * (c2 - c1).
Proof.
  intros Hi Hj H0 H12.
  exists (aqi_band c1), (aqi_band c2).
  destruct (aqi_band_drop c1 c2 H0 H12) as [Hmono Hdrop].
  split; [now apply nth_error_calculate_aqi|].
  split; [now apply nth_error_calculate_aqi|].
  split; [apply aqi_band_line|]. split; [apply aqi_band_line|].
  split; [now apply aqi_band_same_band|].
  split; [exact Hmono|].
  split; [intros k Hk; apply Hmono; now apply (one_decimal_not_in_gap k)|].
  split; [exact aqi_band_at_thresholds|].
  split; [apply aqi_band_in_gap|].
  split; [exact Hdrop | now apply aqi_band_rise].
Qed.

(** The readings 12.0 and 12.05: the second lies in the first gap, and
    its index 11625/233 is below the 50 of the threshold. *)
Lemma calculate_aqi_monotone_outside_gaps_witness :
  exists a1 a2,
    nth_error (calculate_aqi [Some 12.0; Some 12.05]) 0 = Some (Some a1) /\
    nth_error (calculate_aqi [Some 12.0; Some 12.05]) 1 = Some (Some a2) /\
    a1 == 50 /\ a2 == 11625 # 233 /\ a2 < 50 /\
    a1 <= a2 + (50 # 199) /\ a2 <= a1 + (25 # 6) * (12.05 - 12.0).
Proof.
  destruct (calculate_aqi_monotone_outside_gaps
              [Some 12.0; Some 12.05] 0 1 12.0 12.05)
    as (a1 & a2 & Hi & Hj & L1 & L2 & _ & _ & _ & _ & (G & _) & D & U).
  - reflexivity.
  - reflexivity.
  - vm_compute; discriminate.
  - vm_compute; discriminate.
  - exists a1, a2. split; [exact Hi|]. split; [exact Hj|].
    split; [rewrite L1; vm_compute; reflexivity|].
    split; [rewrite L2; vm_compute; reflexivity|].
    split; [apply G; [split|]; vm_compute; congruence|].
    split; [exact D | exact U].
Defined.

(** C2, as stated, fails: 12.0 is in the first band and maps to 50, while
    12.05 is in the second band, below its anchor 12.1, and maps to
    11625/233 (about 49.89).  Nor is the index continuous at 12.0: as
    close above 12.0 as one likes there is a reading whose index is more
    than 1/5 below 50. *)
Lemma calculate_aqi_not_monotone :
  Forall2 cell_eq (calculate_aqi [Some 12.0; Some 12.05])
                  [Some 50; Some (11625 # 233)] /\
  0 <= 12.0 /\ 12.0 <= 12.05 /\ (11625 # 233) < 50 /\
  ~ (forall c1 c2, 0 <= c1 -> c1 <= c2 -> aqi_band c1 <= aqi_band c2) /\
  aqi_band 12.0 == 50 /\
  (forall delta, 0 < delta ->
     exists c, 12.0 < c /\ c < 12.0 + delta /\
               aqi_band c + (1 # 5) < aqi_band 12.0).
Proof.
  split; [repeat constructor; vm_compute; reflexivity|].
  split; [vm_compute; discriminate|].
  split; [vm_compute; discriminate|].
  split; [reflexivity|].
  split.
  { intros H. specialize (H 12.0 12.05).
    apply Qle_not_lt in H;
      [| vm_compute; discriminate | vm_compute; discriminate].
    apply H. reflexivity. }
  split; [vm_compute; reflexivity|].
  intros delta Hd.
  assert (H12 : aqi_band 12.0 == 50) by (vm_compute; reflexivity).
  destruct (Qlt_le_dec delta (1 # 1000)) as [Hs|Hl].
  - exists (12.0 + delta * (1 # 2)). rewrite H12.
    split; [lra|]. split; [lra|].
    unfold aqi_band. repeat split_le; slopes; lra.
  - exists (12.0 + (1 # 2000)). rewrite H12.
    split; [lra|]. split; [lra|].
    vm_compute. reflexivity.
Qed.

(** C3, as amended.  For [pm2_5 = 10] the index is [10 * 50/12 = 125/3],
    41.67 to two decimals, category Good.  For [pm2_5 = 40] it is
    [100 + (40 - 35.5) * 50/19.9 = 22150/199], 111.31 to two decimals,
    category Unhealthy for Sensitive. *)
Theorem calculate_aqi_scenarios :
  Forall2 cell_eq (calculate_aqi [Some 10; Some 40])
                  [Some (125 # 3); Some (22150 # 199)] /\
  (125 # 3) == 10 * (50 / 12) /\
  round2 (125 # 3) == 41.67 /\
  (22150 # 199) == 100 + (40 - 35.5) * (50 / 19.9) /\
  round2 (22150 # 199) == 111.31 /\
  map get_aqi_category (calculate_aqi [Some 10; Some 40])
  = ["Good"; "Unhealthy for Sensitive"]%string.
Proof.
  split; [repeat constructor; vm_compute; reflexivity|].
  repeat split; reflexivity.
Qed.

(** C3, as stated, fails for [pm2_5 = 40]: the index is 22150/199, which
    is below 111.31, more than one whole point under 112.6, and so not
    112.6 to the one decimal given. *)
Lemma calculate_aqi_40_not_112_6 :
  Forall2 cell_eq (calculate_aqi [Some 40]) [Some (22150 # 199)] /\
  (22150 # 199) < 111.31 /\
  (22150 # 199) < 112.6 - 1 /\
  ~ (112.55 <= (22150 # 199) /\ (22150 # 199) <= 112.65).
Proof.
  split; [repeat constructor; vm_compute; reflexivity|].
  split; [reflexivity|].
  split; [reflexivity|].
  intros [H _]. apply H. reflexivity.
Qed.

(** C4.  [calculate_aqi] returns a series as long as its input, missing
    exactly where the input is missing; [get_aqi_category] gives Unknown
    for a missing index and otherwise the category of the first closed
    upper threshold the index does not exceed.  Both are total: no input
    makes them fail. *)
Theorem missing_propagates_and_thresholds_closed :
  (forall pm25 : list cell,
      length (calculate_aqi pm25) = length pm25 /\
      forall i, nth_error (calculate_aqi pm25) i = Some None <->
                nth_error pm25 i = Some None) /\
  get_aqi_category None = "Unknown"%string /\
  (forall a : Q,
      (a <= 50 <-> get_aqi_category (Some a) = "Good"%string) /\
      (50 < a /\ a <= 100 <->
       get_aqi_category (Some a) = "Moderate"%string) /\
      (100 < a /\ a <= 150 <->
       get_aqi_category (Some a) = "Unhealthy for Sensitive"%string) /\
      (150 < a /\ a <= 200 <->
       get_aqi_category (Some a) = "Unhealthy"%string) /\
      (200 < a /\ a <= 300 <->
       get_aqi_category (Some a) = "Very Unhealthy"%string) /\
      (300 < a <-> get_aqi_category (Some a) = "Hazardous"%string)).
Proof.
  split; [|split; [reflexivity|]].
  - intros pm25. rewrite calculate_aqi_map. split; [apply length_map|].
    intros i. rewrite nth_error_map.
    destruct (nth_error pm25 i) as [[c|]|]; simpl; split; intros H;
      try reflexivity; discriminate H.
  - intros a. unfold get_aqi_category.
    repeat split_le; splits; intros H;
      try reflexivity; try discriminate H; lra.
Qed.

End Calculator.

(** ** The calculator evaluated on binary64 floats

    The values found above with exact arithmetic are those of the floats. *)

Module Binary64Facts.

Import Floats.PrimFloat.
Local Open Scope float_scope.
#[local] Set Warnings "-inexact-float".

Lemma aqi_of_10 :
  Binary64.aqi_of 10 = 41.666666666666671 /\
  Binary64.get_aqi_category (Binary64.aqi_of 10) = "Good"%string.
Proof. split; reflexivity. Qed.

Lemma aqi_of_40 :
  Binary64.aqi_of 40 = 111.30653266331659 /\
  Binary64.get_aqi_category (Binary64.aqi_of 40)
  = "Unhealthy for Sensitive"%string.
Proof. split; reflexivity. Qed.

Lemma aqi_of_drops_after_12 :
  Binary64.aqi_of 12.0 = 50 /\
  Binary64.aqi_of 12.05 = 49.892703862660944 /\
  (12.0 <=? 12.05) = true /\
  (Binary64.aqi_of 12.0 <=? Binary64.aqi_of 12.05) = false.
Proof. repeat split; reflexivity. Qed.

(** At the five thresholds the floats give the index of the next anchor
    exactly; within an ulp of the anchors 55.5 and 250.5 the sum rounds to
    the index of the anchor itself. *)
Lemma aqi_of_at_thresholds :
  Binary64.aqi_of 12.0 = 50 /\ Binary64.aqi_of 35.4 = 100 /\
  Binary64.aqi_of 55.4 = 150 /\ Binary64.aqi_of 150.4 = 200 /\
  Binary64.aqi_of 250.4 = 300.
Proof. repeat split; reflexivity. Qed.

Lemma aqi_of_next_to_anchors :
  Binary64.aqi_of 55.49999999999999 = 150 /\
  Binary64.aqi_of 55.50000000000001 = 150 /\
  Binary64.aqi_of 250.49999999999997 = 300 /\
  Binary64.aqi_of 250.50000000000003 = 300 /\
  (Binary64.aqi_of 55.499 <? 150) = true /\
  (Binary64.aqi_of 250.499 <? 300) = true.
Proof. repeat split; reflexivity. Qed.

Lemma aqi_of_nan :
  is_nan (Binary64.aqi_of nan) = true /\
  Binary64.get_aqi_category (Binary64.aqi_of nan) = "Unknown"%string.
Proof. split; reflexivity. Qed.

End Binary64Facts.

(** ** Columns, shifts and rolling windows *)

Section Columns.

Lemma map_nth_seq (l : list cell) :
  map (fun i => nth i l None) (seq 0 (length l)) = l.
Proof.
  apply nth_error_ext. intros i.
  destruct (Nat.lt_ge_cases i (length l)) as [Hlt|Hge].
  - rewrite nth_error_map, nth_error_seq.
    apply Nat.ltb_lt in Hlt as Hb. rewrite Hb. simpl.
    symmetry. now apply nth_error_nth'.
  - rewrite (proj2 (nth_error_None _ _)) by (rewrite length_map, length_seq; lia).
    symmetry. now apply nth_error_None.
Qed.

Lemma map_fst_combine {A B} (s : list A) (l : list B) :
  length s = length l -> map fst (combine s l) = s.
Proof.
  revert l. induction s as [|x s IH]; intros [|a l] H; simpl in *;
    try reflexivity; try discriminate.
  f_equal. apply IH. lia.
Qed.

Lemma map_snd_combine {A B} (s : list A) (l : list B) :
  length s = length l -> map snd (combine s l) = l.
Proof.
  revert l. induction s as [|x s IH]; intros [|a l] H; simpl in *;
    try reflexivity; try discriminate.
  f_equal. apply IH. lia.
Qed.

Lemma enumerate_fst {A} (l : list A) :
  map fst (enumerate l) = seq 0 (length l).
Proof. apply map_fst_combine, length_seq. Qed.

Lemma enumerate_snd {A} (l : list A) : map snd (enumerate l) = l.
Proof. apply map_snd_combine, length_seq. Qed.

Lemma length_enumerate {A} (l : list A) : length (enumerate l) = length l.
Proof. rewrite <- (length_map snd), enumerate_snd. reflexivity. Qed.


(** Reading a column back through the rows built from it. *)
Lemma column_of_rows {A} (df : list A) (col : list cell) :
  length col = length df ->
  map (fun ir : nat * A => at_row col (fst ir)) (enumerate df) = col.
Proof.
  intros Hlen.
  rewrite <- (map_map fst (at_row col)), enumerate_fst, <- Hlen.
  apply map_nth_seq.
Qed.

Lemma length_shift (k : Z) (s : list cell) : length (shift k s) = length s.
Proof. unfold shift. now rewrite length_map, length_seq. Qed.

Lemma length_rolling_mean (w : nat) (s : list cell) :
  length (rolling_mean w s) = length s.
Proof. unfold rolling_mean. now rewrite length_map, length_seq. Qed.

Lemma length_groupby_transform keys col f :
  length (groupby_transform keys col f) = length keys.
Proof. unfold groupby_transform. apply length_map. Qed.

Lemma nth_error_enumerate_inv {A} (l : list A) (i j : nat) (a : A) :
  nth_error (enumerate l) i = Some (j, a) -> j = i /\ nth_error l i = Some a.
Proof.
  intros E.
  assert (Hi : (i < length l)%nat).
  { rewrite <- (length_enumerate l). apply nth_error_Some. congruence. }
  pose proof (map_nth_error fst _ _ E) as Hf.
  pose proof (map_nth_error snd _ _ E) as Hs.
  rewrite enumerate_fst in Hf. rewrite enumerate_snd in Hs.
  rewrite nth_error_seq in Hf. apply Nat.ltb_lt in Hi. rewrite Hi in Hf.
  simpl in *. split; congruence.
Qed.

Lemma at_row_tabulate (f : nat -> cell) (n i : nat) :
  (i < n)%nat -> at_row (map f (seq 0 n)) i = f i.
Proof.
  intros Hi. unfold at_row. apply nth_error_nth.
  rewrite nth_error_map, nth_error_seq.
  apply Nat.ltb_lt in Hi. now rewrite Hi.
Qed.

Lemma at_row_nth_error (col : list cell) (i : nat) (v : cell) :
  nth_error col i = Some v -> at_row col i = v.
Proof. intros H. unfold at_row. now apply nth_error_nth. Qed.

Lemma at_row_beyond (col : list cell) (i : nat) :
  (length col <= i)%nat -> at_row col i = None.
Proof. intros H. unfold at_row. now apply nth_overflow. Qed.

(** Row [i] of a column shifted down by [k] rows. *)
Lemma at_row_shift_down (k : nat) (s : list cell) (i : nat) :
  (i < length s)%nat ->
  at_row (shift (Z.of_nat k) s) i
  = if (i <? k)%nat then None else at_row s (i - k).
Proof.
  intros Hlt.
  unfold shift. rewrite at_row_tabulate by assumption. cbv zeta.
  destruct (Nat.ltb_spec i k) as [Hik|Hik].
  - replace (Z.of_nat i - Z.of_nat k <? 0)%Z with true
      by (symmetry; apply Z.ltb_lt; lia).
    reflexivity.
  - replace (Z.of_nat i - Z.of_nat k <? 0)%Z with false
      by (symmetry; apply Z.ltb_ge; lia).
    unfold at_row. f_equal. lia.
Qed.

(** Row [i] of a column shifted up by [k] rows. *)
Lemma at_row_shift_up (k : nat) (s : list cell) (i : nat) :
  at_row (shift (- Z.of_nat k) s) i
  = if (i <? length s)%nat then at_row s (i + k) else None.
Proof.
  destruct (Nat.ltb_spec i (length s)) as [Hlt|Hge].
  - unfold shift. rewrite at_row_tabulate by assumption. cbv zeta.
    replace (Z.of_nat i - - Z.of_nat k <? 0)%Z with false
      by (symmetry; apply Z.ltb_ge; lia).
    unfold at_row. f_equal. lia.
  - apply at_row_beyond. now rewrite length_shift.
Qed.

End Columns.

(** The lengths of the derived columns, for rewriting. *)
Create Rewrite HintDb lengths.
#[global] Hint Rewrite length_shift length_rolling_mean
  length_groupby_transform @length_enumerate @length_map length_seq
  @repeat_length : lengths.

(** ** The hourly features *)

(** The calendar columns on known dates: 2024-01-01 (day 19723) was a
    Monday, 2023-12-31 a Sunday in December, 2024-02-29 a Thursday. *)
Example calendar_columns :
  (dayofweek 19723, month_of 19723, day_name_of 19723)
  = (0, 1, "Monday"%string)%Z /\
  (dayofweek 19722, month_of 19722) = (6, 12)%Z /\
  (dayofweek 19782, month_of 19782) = (3, 2)%Z /\
  (date_of 1704111300, hour_of 1704111300) = (19723, 12)%Z.
Proof. repeat split; reflexivity. Qed.

Section Hourly.

Lemma length_create_features (df : list Obs) :
  length (create_features df) = length df.
Proof. unfold create_features. now autorewrite with lengths. Qed.

(** Row [i] of the result: the input row [i] and the added columns read
    at [i]. *)
Lemma create_features_row (df : list Obs) (i : nat) (r : HourlyRow) :
  nth_error (create_features df) i = Some r ->
  exists o,
    nth_error df i = Some o /\ obs r = o /\
    date r = date_of (timestamp o) /\
    pm2_5_lag_1h r = at_row (shift 1 (map pm2_5 df)) i /\
    pm2_5_lag_24h r = at_row (shift 24 (map pm2_5 df)) i /\
    pm2_5_6h_avg r = at_row (rolling_mean 6 (map pm2_5 df)) i /\
    pm2_5_24h_avg r = at_row (rolling_mean 24 (map pm2_5 df)) i /\
    next_day_avg_aqi r
    = at_row (groupby_transform (map (fun x => date_of (timestamp x)) df)
                (map aqi df) (fun x => mean (shift (-24) x))) i.
Proof.
  unfold create_features. rewrite nth_error_map.
  destruct (nth_error (enumerate df) i) as [[j o]|] eqn:E; [|discriminate].
  apply nth_error_enumerate_inv in E as [-> Ho].
  simpl. intros [= <-]. exists o. simpl. splits; try reflexivity; assumption.
Qed.

Lemma lag_24h_column (df : list Obs) :
  map pm2_5_lag_24h (create_features df) = shift 24 (map pm2_5 df).
Proof.
  unfold create_features. rewrite map_map. simpl.
  apply column_of_rows. now autorewrite with lengths.
Qed.

Lemma dropna_app (l1 l2 : list cell) :
  dropna (l1 ++ l2) = dropna l1 ++ dropna l2.
Proof.
  induction l1 as [|[q|] l1 IH]; simpl; [reflexivity| |assumption].
  now rewrite IH.
Qed.

Lemma dropna_repeat_None (k : nat) : dropna (repeat None k) = [].
Proof. induction k; simpl; [reflexivity|assumption]. Qed.

Lemma count_le_length (l : list cell) : (count l <= length l)%nat.
Proof.
  unfold count. induction l as [|[q|] l IH]; simpl; lia.
Qed.

Lemma count_all_present (l : list cell) :
  Forall (fun v => v <> None) l -> count l = length l.
Proof.
  unfold count. induction 1 as [|[q|] l Hv _ IH]; simpl;
    [reflexivity | now rewrite IH | contradiction].
Qed.

Lemma Forall_firstn {A} (P : A -> Prop) (n : nat) (l : list A) :
  Forall P l -> Forall P (firstn n l).
Proof.
  intros H. revert n. induction H as [|x l Hx _ IH]; intros [|n]; simpl;
    constructor; auto.
Qed.

Lemma Forall_skipn {A} (P : A -> Prop) (n : nat) (l : list A) :
  Forall P l -> Forall P (skipn n l).
Proof.
  intros H. revert n. induction H as [|x l Hx Hl IH]; intros [|n]; simpl;
    auto.
Qed.

(** A column shifted down by [k] rows: [k] missing cells in front, the
    last [k] cells cut off. *)
Lemma shift_down_eq (k : nat) (s : list cell) :
  shift (Z.of_nat k) s = firstn (length s) (repeat None k ++ s).
Proof.
  apply (nth_ext _ _ None None).
  - rewrite length_shift, length_firstn, length_app, repeat_length. lia.
  - rewrite length_shift. intros i Hi.
    change (at_row (shift (Z.of_nat k) s) i
            = nth i (firstn (length s) (repeat None k ++ s)) None).
    rewrite at_row_shift_down by assumption.
    rewrite nth_firstn. apply Nat.ltb_lt in Hi as Hb. rewrite Hb.
    destruct (Nat.ltb_spec i k) as [Hik|Hik].
    + rewrite app_nth1 by (rewrite repeat_length; assumption).
      symmetry. apply nth_repeat.
    + rewrite app_nth2 by (rewrite repeat_length; assumption).
      now rewrite repeat_length.
Qed.

Lemma count_shift_down (k : nat) (s : list cell) :
  Forall (fun v => v <> None) s -> (k <= length s)%nat ->
  count (shift (Z.of_nat k) s) = (length s - k)%nat.
Proof.
  intros Hs Hk. rewrite shift_down_eq, firstn_app, repeat_length.
  rewrite firstn_all2 by (rewrite repeat_length; assumption).
  unfold count. rewrite dropna_app, dropna_repeat_None. simpl.
  fold (count (firstn (length s - k) s)).
  rewrite count_all_present by (now apply Forall_firstn).
  rewrite length_firstn. lia.
Qed.

Lemma pm2_5_column_complete (df : list Obs) :
  pm2_5_complete df -> Forall (fun v => v <> None) (map pm2_5 df).
Proof. intros H. apply Forall_map. exact H. Qed.

(** C5.  On [N > 24] rows without a missing [pm2_5], the column
    [pm2_5_lag_24h] holds exactly [N - 24] numbers: it is missing on the
    first 24 rows, and on row [i >= 24] it is the [pm2_5] of row
    [i - 24]. *)
Theorem lag_24h_defined_on_last_rows (df : list Obs) :
  pm2_5_complete df -> (24 < length df)%nat ->
  count (map pm2_5_lag_24h (create_features df)) = (length df - 24)%nat /\
  forall i r,
    nth_error (create_features df) i = Some r ->
    if (i <? 24)%nat then pm2_5_lag_24h r = None
    else exists o v,
        nth_error df (i - 24) = Some o /\ pm2_5 o = Some v /\
        pm2_5_lag_24h r = Some v.
Proof.
  intros Hc HN. split.
  - rewrite lag_24h_column.
    rewrite (count_shift_down 24) by
      (try apply pm2_5_column_complete; try rewrite length_map; try lia;
       assumption).
    now rewrite length_map.
  - intros i r Hr.
    assert (Hi : (i < length df)%nat).
    { rewrite <- length_create_features. apply nth_error_Some. congruence. }
    apply create_features_row in Hr as (o & Ho & _ & _ & _ & H24 & _).
    rewrite H24.
    rewrite (at_row_shift_down 24) by (now rewrite length_map).
    destruct (Nat.ltb_spec i 24) as [Hlt|Hge]; [reflexivity|].
    destruct (nth_error df (i - 24)) as [o'|] eqn:Eo.
    2:{ apply nth_error_None in Eo. lia. }
    assert (Hin : pm2_5 o' <> None).
    { unfold pm2_5_complete in Hc. rewrite Forall_forall in Hc.
      apply Hc. eapply nth_error_In. exact Eo. }
    destruct (pm2_5 o') as [v|] eqn:Ev; [|contradiction].
    exists o', v. splits; [reflexivity | assumption |].
    apply at_row_nth_error. rewrite nth_error_map, Eo. simpl. now rewrite Ev.
Qed.

Lemma lag_24h_defined_on_last_rows_witness :
  count (map pm2_5_lag_24h (create_features (hourly_sample 30))) = 6%nat /\
  forall i r,
    nth_error (create_features (hourly_sample 30)) i = Some r ->
    if (i <? 24)%nat then pm2_5_lag_24h r = None
    else exists o v,
        nth_error (hourly_sample 30) (i - 24) = Some o /\ pm2_5 o = Some v /\
        pm2_5_lag_24h r = Some v.
Proof.
  apply (lag_24h_defined_on_last_rows (hourly_sample 30)).
  - unfold pm2_5_complete. repeat constructor; discriminate.
  - simpl. lia.
Defined.

(** Row [i] of a rolling mean. *)
Lemma at_row_rolling_mean (w : nat) (s : list cell) (i : nat) :
  (i < length s)%nat ->
  at_row (rolling_mean w s) i
  = if (count (rolling_window w i s) <? w)%nat then None
    else mean (rolling_window w i s).
Proof.
  intros Hi. unfold rolling_mean. now rewrite at_row_tabulate.
Qed.

(** The first [w - 1] rows of a rolling mean are missing, whatever the
    column holds. *)
Lemma rolling_mean_head (w : nat) (s : list cell) (i : nat) :
  (i + 1 < w)%nat -> at_row (rolling_mean w s) i = None.
Proof.
  intros Hw. destruct (Nat.lt_ge_cases i (length s)) as [Hi|Hi].
  - rewrite at_row_rolling_mean by assumption.
    pose proof (count_le_length (rolling_window w i s)) as Hc.
    assert (Hl : (length (rolling_window w i s) <= i + 1)%nat).
    { unfold rolling_window. rewrite length_firstn. lia. }
    replace (count (rolling_window w i s) <? w)%nat with true
      by (symmetry; apply Nat.ltb_lt; lia).
    reflexivity.
  - apply at_row_beyond. now rewrite length_rolling_mean.
Qed.

(** From row [w - 1] on, a rolling mean over a column without missing
    cells is a number. *)
Lemma rolling_mean_defined (w : nat) (s : list cell) (i : nat) :
  (0 < w)%nat -> (w <= i + 1)%nat -> (i < length s)%nat ->
  Forall (fun v => v <> None) s ->
  at_row (rolling_mean w s) i <> None.
Proof.
  intros Hw Hwi Hi Hs. rewrite at_row_rolling_mean by assumption.
  assert (Hc : count (rolling_window w i s) = w).
  { unfold rolling_window.
    rewrite count_all_present by (apply Forall_firstn, Forall_skipn, Hs).
    rewrite length_firstn, length_skipn. lia. }
  rewrite Hc, Nat.ltb_irrefl.
  unfold mean, average. unfold count in Hc.
  destruct (dropna (rolling_window w i s)); [simpl in Hc; lia | discriminate].
Qed.

(** C6, as amended.  On any input, [pm2_5_lag_1h] is missing on the first
    row, [pm2_5_6h_avg] on the first 5 rows and [pm2_5_24h_avg] on the
    first 23 rows; when no [pm2_5] is missing these are exactly the rows
    where they are missing: a window of 6 (of 24) rows is complete from
    the 6th (the 24th) row on. *)
Theorem lag_and_rolling_missing_rows (df : list Obs) (i : nat) (r : HourlyRow) :
  nth_error (create_features df) i = Some r ->
  ((i < 1)%nat -> pm2_5_lag_1h r = None) /\
  ((i < 5)%nat -> pm2_5_6h_avg r = None) /\
  ((i < 23)%nat -> pm2_5_24h_avg r = None) /\
  (pm2_5_complete df ->
   ((1 <= i)%nat -> pm2_5_lag_1h r <> None) /\
   ((5 <= i)%nat -> pm2_5_6h_avg r <> None) /\
   ((23 <= i)%nat -> pm2_5_24h_avg r <> None)).
Proof.
  intros Hr.
  assert (Hi : (i < length (map pm2_5 df))%nat).
  { rewrite length_map, <- length_create_features.
    apply nth_error_Some. congruence. }
  apply create_features_row in Hr as (o & Ho & _ & _ & H1 & _ & H6 & H24 & _).
  rewrite H1, H6, H24. splits; [| | | intros H; splits].
  - intros Hlt. rewrite (at_row_shift_down 1) by assumption.
    apply Nat.ltb_lt in Hlt. now rewrite Hlt.
  - intros Hlt. apply rolling_mean_head. lia.
  - intros Hlt. apply rolling_mean_head. lia.
  - intros Hge. rewrite (at_row_shift_down 1) by assumption.
    apply Nat.ltb_ge in Hge as Hb. rewrite Hb.
    apply pm2_5_column_complete in H. rewrite Forall_forall in H.
    apply H. apply nth_In. lia.
  - intros Hge. apply rolling_mean_defined; try lia.
    now apply pm2_5_column_complete.
  - intros Hge. apply rolling_mean_defined; try lia.
    now apply pm2_5_column_complete.
Qed.

Lemma lag_and_rolling_missing_rows_witness :
  exists r,
    nth_error (create_features (hourly_sample 30)) 23 = Some r /\
    (((23 < 1)%nat -> pm2_5_lag_1h r = None) /\
     ((23 < 5)%nat -> pm2_5_6h_avg r = None) /\
     ((23 < 23)%nat -> pm2_5_24h_avg r = None) /\
     (pm2_5_complete (hourly_sample 30) ->
      ((1 <= 23)%nat -> pm2_5_lag_1h r <> None) /\
      ((5 <= 23)%nat -> pm2_5_6h_avg r <> None) /\
      ((23 <= 23)%nat -> pm2_5_24h_avg r <> None))).
Proof.
  eexists. split; [reflexivity|].
  apply (lag_and_rolling_missing_rows (hourly_sample 30) 23).
  reflexivity.
Defined.

(** C6, as stated, fails: on 6 hourly rows [pm2_5_6h_avg] is a number on
    the 6th row (the mean 2.5 of the readings 0..5), and on 24 hourly rows
    [pm2_5_24h_avg] is a number on the 24th row (11.5). *)
Lemma rolling_mean_defined_on_last_window_row :
  Forall2 cell_eq (map pm2_5_6h_avg (create_features (hourly_sample 6)))
                  [None; None; None; None; None; Some 2.5] /\
  exists r,
    nth_error (create_features (hourly_sample 24)) 23 = Some r /\
    cell_eq (pm2_5_24h_avg r) (Some 11.5).
Proof.
  split.
  - repeat constructor; vm_compute; reflexivity.
  - eexists. split; [reflexivity|]. vm_compute. reflexivity.
Qed.

(** The group of a key, read off the rows of the frame. *)
Lemma group_map {A} (key : A -> Z) (col : A -> cell) (df : list A) (k : Z) :
  group (map key df) (map col df) k
  = map col (filter (fun x => (key x =? k)%Z) df).
Proof.
  induction df as [|x df IH]; simpl; [reflexivity|].
  destruct (key x =? k)%Z; simpl; now rewrite IH.
Qed.

(** A column shifted up by [k] rows: the first [k] cells cut off, missing
    cells at the end. *)
Lemma shift_up_eq (k : nat) (s : list cell) :
  shift (- Z.of_nat k) s
  = skipn k s ++ repeat None (Nat.min k (length s)).
Proof.
  apply (nth_ext _ _ None None).
  - rewrite length_shift, length_app, length_skipn, repeat_length. lia.
  - rewrite length_shift. intros i Hi.
    change (at_row (shift (- Z.of_nat k) s) i
            = nth i (skipn k s ++ repeat None (Nat.min k (length s))) None).
    rewrite at_row_shift_up. apply Nat.ltb_lt in Hi as Hb. rewrite Hb.
    destruct (Nat.lt_ge_cases i (length s - k)) as [Hlt|Hge].
    + rewrite app_nth1 by (rewrite length_skipn; assumption).
      rewrite nth_skipn. unfold at_row. f_equal. lia.
    + rewrite app_nth2 by (rewrite length_skipn; assumption).
      rewrite nth_repeat. apply at_row_beyond. lia.
Qed.

Lemma mean_shift_up (k : nat) (s : list cell) :
  mean (shift (- Z.of_nat k) s) = average (dropna (skipn k s)).
Proof.
  unfold mean.
  now rewrite shift_up_eq, dropna_app, dropna_repeat_None, app_nil_r.
Qed.

(** The label of a row, in terms of the rows of its own date. *)
Lemma next_day_label (df : list Obs) (i : nat) (r : HourlyRow) :
  nth_error (create_features df) i = Some r ->
  next_day_avg_aqi r = mean (shift (-24) (map aqi (rows_on (date r) df))).
Proof.
  intros Hr.
  apply create_features_row in Hr as (o & Ho & _ & Hd & _ & _ & _ & _ & Hn).
  rewrite Hn, Hd. unfold groupby_transform, rows_on.
  rewrite <- (group_map (fun x => date_of (timestamp x)) aqi).
  apply at_row_nth_error.
  rewrite nth_error_map, nth_error_map, Ho. reflexivity.
Qed.

Lemma numbers_of_dropna (s : list cell) : numbers_of s = dropna s.
Proof.
  unfold numbers_of. induction s as [|[q|] s IH]; simpl;
    [reflexivity | now rewrite IH | assumption].
Qed.

(** The mean of at least one number, times their count, is their sum. *)
Lemma average_times_length (vs : list Q) :
  vs <> [] ->
  exists m, average vs = Some m /\
            m * inject_Z (Z.of_nat (length vs)) == fold_right Qplus 0 vs.
Proof.
  intros Hne. destruct vs as [|v vs]; [contradiction|].
  eexists. split; [reflexivity|]. unfold Qsum, Qnat.
  assert (Hn : ~ inject_Z (Z.of_nat (length (v :: vs))) == 0).
  { intros H. apply (Qeq_bool_neq (inject_Z (Z.of_nat (length (v :: vs)))) 0);
      [|exact H].
    unfold Qeq_bool, inject_Z. simpl Qnum. simpl Qden.
    apply Z.eqb_neq. simpl length. lia. }
  field. exact Hn.
Qed.

(** C1.  The label of a row is the mean of the index column of the rows
    of its own date, shifted up by 24 rows inside that group: the mean of
    the group's index values from its 25th row on, that is, missing when
    none of these rows has an index value, and otherwise the number that,
    multiplied by how many of them have one, gives their sum.  It is not
    the mean index of the following date: when the row's date has at most
    24 rows and the following date has an index value, the label is
    missing and differs from that mean. *)
Theorem next_day_label_is_shifted_group_mean
    (df : list Obs) (i : nat) (r : HourlyRow) :
  nth_error (create_features df) i = Some r ->
  next_day_avg_aqi r = mean (shift (-24) (map aqi (rows_on (date r) df))) /\
  next_day_avg_aqi r
  = average (dropna (skipn 24 (map aqi (rows_on (date r) df)))) /\
  (let vs := numbers_of (skipn 24 (map aqi (rows_on (date r) df))) in
   (vs = [] -> next_day_avg_aqi r = None) /\
   (vs <> [] ->
    exists m, next_day_avg_aqi r = Some m /\
              m * inject_Z (Z.of_nat (length vs)) == fold_right Qplus 0 vs)) /\
  ((length (rows_on (date r) df) <= 24)%nat ->
   following_day_mean df (date r) <> None ->
   next_day_avg_aqi r <> following_day_mean df (date r)).
Proof.
  intros Hr. pose proof (next_day_label df i r Hr) as Hl.
  split; [exact Hl|]. split; [|split].
  - rewrite Hl. apply (mean_shift_up 24).
  - cbv zeta. rewrite Hl, (mean_shift_up 24), numbers_of_dropna. split.
    + intros ->. reflexivity.
    + apply average_times_length.
  - intros Hlen Hnext Heq. apply Hnext. rewrite <- Heq, Hl.
    rewrite (mean_shift_up 24), skipn_all2 by (now rewrite length_map).
    reflexivity.
Qed.

(** On 60 half-hourly rows the first date has 48 rows: the label of its
    rows is the mean 35.5 of the index values 24, 25, ..., 47 of its rows
    25 to 48, while the following date has the mean index 53.5. *)
Lemma next_day_label_is_shifted_group_mean_witness :
  exists r m,
    nth_error (create_features (half_hourly_sample 60)) 5 = Some r /\
    next_day_avg_aqi r = Some m /\ m == 35.5 /\
    cell_eq (following_day_mean (half_hourly_sample 60) (date r)) (Some 53.5).
Proof.
  eexists.
  destruct (next_day_label_is_shifted_group_mean (half_hourly_sample 60) 5 _
              eq_refl) as (_ & _ & [_ Hsum] & _).
  destruct Hsum as (m & Hm & Hs); [vm_compute; discriminate|].
  exists m. split; [reflexivity|]. split; [exact Hm|]. split.
  - assert (Hn : inject_Z (Z.of_nat (length (numbers_of (skipn 24
                   (map aqi (rows_on 0 (half_hourly_sample 60)))))))
                 == 24) by (vm_compute; reflexivity).
    assert (Ht : fold_right Qplus 0 (numbers_of (skipn 24
                   (map aqi (rows_on 0 (half_hourly_sample 60)))))
                 == 852) by (vm_compute; reflexivity).
    change (date _) with 0%Z in Hs. rewrite Hn, Ht in Hs.
    setoid_replace 35.5 with (852 * / 24) by (vm_compute; reflexivity).
    apply Qmult_inj_r with (z := 24); [discriminate|].
    rewrite Hs. vm_compute. reflexivity.
  - vm_compute. reflexivity.
Defined.

(** On two full days of hourly rows the labels of the first day are
    missing, while the second day has a mean index. *)
Example next_day_label_on_two_days :
  map next_day_avg_aqi (create_features (hourly_sample 48)) = repeat None 48 /\
  following_day_mean (hourly_sample 48) 0 <> None.
Proof. split; [vm_compute; reflexivity | discriminate]. Qed.

(** C10.  A row whose calendar date has at most 24 rows in the input has
    a missing label: shifting the group up by 24 rows leaves no value to
    average. *)
Theorem next_day_label_missing_on_short_days
    (df : list Obs) (i : nat) (r : HourlyRow) :
  nth_error (create_features df) i = Some r ->
  (length (rows_on (date r) df) <= 24)%nat ->
  next_day_avg_aqi r = None.
Proof.
  intros Hr Hlen. rewrite (next_day_label df i r Hr).
  rewrite (mean_shift_up 24), skipn_all2 by (now rewrite length_map).
  reflexivity.
Qed.

Lemma next_day_label_missing_on_short_days_witness :
  exists r,
    nth_error (create_features (hourly_sample 48)) 30 = Some r /\
    (length (rows_on (date r) (hourly_sample 48)) <= 24)%nat /\
    next_day_avg_aqi r = None.
Proof.
  eexists. split; [reflexivity|].
  split; [vm_compute; lia|].
  apply (next_day_label_missing_on_short_days (hourly_sample 48) 30).
  - reflexivity.
  - vm_compute. lia.
Defined.

End Hourly.

(** ** The daily table *)

Section DailyTable.

Lemma at_row_agg (df : list HourlyRow) (col : HourlyRow -> cell)
    (f : list cell -> cell) (i : nat) (k : Z) :
  nth_error (group_keys (map date df)) i = Some k ->
  at_row (agg df col f) i = f (map col (day_rows k df)).
Proof.
  intros Hk. apply at_row_nth_error. unfold agg.
  rewrite nth_error_map, Hk. simpl. now rewrite group_map.
Qed.








Lemma at_row_map_round2 (col : list cell) (i : nat) :
  (i < length col)%nat ->
  at_row (map round2_cell col) i = round2_cell (at_row col i).
Proof.
  intros Hi. unfold at_row.
  change None with (round2_cell None) at 1. apply map_nth.
Qed.

Lemma length_agg df col f :
  length (agg df col f) = length (group_keys (map date df)).
Proof. unfold agg. apply length_map. Qed.

Lemma length_create_daily_data (df : list HourlyRow) :
  length (create_daily_data df) = length (group_keys (map date df)).
Proof. unfold create_daily_data. now autorewrite with lengths. Qed.




Lemma round_half_even_bounds (q : Q) :
  (Qfloor q <= round_half_even q <= Qfloor q + 1)%Z /\
  q - (1 # 2) <= inject_Z (round_half_even q) /\
  inject_Z (round_half_even q) <= q + (1 # 2).
Proof.
  unfold round_half_even.
  pose proof (Qfloor_le q) as Hlo. pose proof (Qlt_floor q) as Hhi.
  rewrite inject_Z_plus in Hhi. change (inject_Z 1) with 1 in Hhi.
  destruct (Qcompare_spec (q - inject_Z (Qfloor q)) (1 # 2)) as [E|E|E].
  - destruct (Z.even (Qfloor q)); (split; [lia|]);
      try (rewrite inject_Z_plus; change (inject_Z 1) with 1); lra.
  - split; [lia|]. lra.
  - split; [lia|]. rewrite inject_Z_plus. change (inject_Z 1) with 1. lra.
Qed.





Lemma In_insert_key (x k : Z) (ks : list Z) :
  In x (insert_key k ks) <-> x = k \/ In x ks.
Proof.
  induction ks as [|h t IH]; simpl.
  - intuition.
  - destruct (Z.ltb_spec k h); [simpl; intuition|].
    destruct (Z.eqb_spec k h); simpl; [subst; intuition|].
    rewrite IH. intuition.
Qed.

(** Every date of the frame is a key of the grouping. *)
Lemma In_group_keys (x : Z) (l : list Z) : In x (group_keys l) <-> In x l.
Proof.
  unfold group_keys. induction l as [|k l IH]; simpl; [reflexivity|].
  rewrite In_insert_key, IH. intuition.
Qed.









End DailyTable.

(** ** The trainer *)

Section TrainerProps.

Import Trainer.

Variable Forest : Type.
Variable fit : list (list Q) -> list Q -> Forest.
Variable forest_predict : Forest -> list (list Q) -> list Q.
Variable feature_importances_ : Forest -> list Q.
Variable mean_absolute_error : list Q -> list Q -> Q.
Variable mean_squared_error : list Q -> list Q -> Q.
Variable np_sqrt : Q -> Q.
Variable r2_score : list Q -> list Q -> cell.
Variable dump_error : list string -> string -> option exn.

Local Abbreviation train :=
  (Trainer.train Forest fit forest_predict feature_importances_
     mean_absolute_error mean_squared_error np_sqrt r2_score).

Local Abbreviation train_and_save :=
  (Trainer.train_and_save Forest fit forest_predict feature_importances_
     mean_absolute_error mean_squared_error np_sqrt r2_score dump_error).

(** A fifth of [n], rounded up, for the two sizes that matter. *)
Lemma n_test_of_0 : n_test_of 0 = 0%nat.
Proof. reflexivity. Qed.

Lemma n_test_of_1 : n_test_of 1 = 1%nat.
Proof. reflexivity. Qed.

(** The test set is empty for the empty table only. *)
Lemma n_test_of_pos (n : nat) : (0 < n)%nat -> (0 < n_test_of n)%nat.
Proof.
  intros Hn. unfold n_test_of.
  assert (Hq : 0 < 0.2 * Qnat n).
  { assert (0 < Qnat n)
      by (unfold Qnat; change 0 with (inject_Z 0); rewrite <- Zlt_Qlt; lia).
    lra. }
  pose proof (Qle_ceiling (0.2 * Qnat n)) as Hc.
  assert (Hz : 0 < inject_Z (Qceiling (0.2 * Qnat n))) by lra.
  change 0 with (inject_Z 0) in Hz. rewrite <- Zlt_Qlt in Hz. lia.
Qed.

Lemma split_fails_below_two_rows (X : list (list Q)) (y : list Q) :
  (length X < 2)%nat -> train_test_split X y = inl (Raise "ValueError").
Proof.
  intros Hn. unfold train_test_split.
  destruct (length X =? length y)%nat; simpl; [|reflexivity].
  unfold validate_shuffle_split.
  destruct (length X) as [|[|n]]; [reflexivity | reflexivity | lia].
Qed.

(** From 2 rows on the split succeeds, and so does [train], which then
    holds a fitted model. *)
Lemma n_test_of_lt (n : nat) : (2 <= n)%nat -> (n_test_of n < n)%nat.
Proof.
  intros Hn. unfold n_test_of.
  assert (Hq : 0.2 * Qnat n <= inject_Z (Z.of_nat n - 1)).
  { unfold Qnat, Z.sub. rewrite inject_Z_plus.
    change (inject_Z (- (1))) with (- (1)).
    assert (2 <= inject_Z (Z.of_nat n))
      by (change 2 with (inject_Z 2); rewrite <- Zle_Qle; lia).
    lra. }
  apply Qceiling_resp_le in Hq. rewrite Qceiling_Z in Hq. lia.
Qed.

Lemma train_succeeds_from_two_rows
    (X : Frame) (y : list Q) (w : World Forest) :
  (2 <= length (rows X))%nat -> length y = length (rows X) ->
  (forall f : Forest, length (feature_importances_ f) = length (columns X)) ->
  exists res w',
    train X y w = (inr res, w') /\ model Forest (self Forest w') <> None /\
    files Forest w' = files Forest w.
Proof.
  intros Hn Hy Hf. unfold Trainer.train, bind, Trainer.split, train_test_split.
  rewrite Hy, Nat.eqb_refl. simpl. unfold validate_shuffle_split.
  pose proof (n_test_of_lt _ Hn) as Hlt.
  destruct (length (rows X) - n_test_of (length (rows X)) =? 0)%nat eqn:E.
  - apply Nat.eqb_eq in E. lia.
  - simpl. rewrite Hf, Nat.eqb_refl. simpl.
    eexists. eexists. split; [reflexivity|]. simpl.
    split; [discriminate | reflexivity].
Qed.

(** C9, as amended.  On a table of fewer than 2 rows [train] fails with
    the [ValueError] of the split, leaving the model object as it was and
    writing no file, and the script that trains and then saves stops
    there with the same error.  For every number of rows, the test split
    is empty for the empty table only, and the train split is empty
    exactly below 2 rows; from 2 rows on, with as many targets and a
    regressor that reports one importance per column, [train] does not
    fail. *)
Theorem train_fails_below_two_rows
    (X : Frame) (y : list Q) (w : World Forest) :
  ((length (rows X) < 2)%nat ->
   train X y w = (inl (Raise "ValueError"), w) /\
   train_and_save X y w = (inl (Raise "ValueError"), w)) /\
  (forall n : nat, n_test_of n = 0%nat <-> n = 0%nat) /\
  (forall n : nat, (n - n_test_of n = 0)%nat <-> (n < 2)%nat) /\
  ((2 <= length (rows X))%nat -> length y = length (rows X) ->
   (forall f : Forest, length (feature_importances_ f) = length (columns X)) ->
   exists res w', train X y w = (inr res, w')).
Proof.
  split; [|split; [|split]].
  - intros Hn.
    assert (Ht : train X y w = (inl (Raise "ValueError"), w)).
    { unfold Trainer.train, bind, Trainer.split.
      now rewrite (split_fails_below_two_rows _ y Hn). }
    split; [exact Ht|].
    unfold Trainer.train_and_save, bind. now rewrite Ht.
  - intros n. split.
    + intros H0. destruct n as [|n]; [reflexivity|].
      pose proof (n_test_of_pos (S n)). lia.
    + intros ->. reflexivity.
  - intros n. split.
    + intros H0. destruct n as [|[|n]]; [lia | lia |].
      pose proof (n_test_of_lt (S (S n))). lia.
    + intros Hn. destruct n as [|[|n]]; [reflexivity | reflexivity | lia].
  - intros Hn Hy Hf.
    destruct (train_succeeds_from_two_rows X y w Hn Hy Hf)
      as (res & w' & H & _).
    now exists res, w'.
Qed.

End TrainerProps.

Lemma train_fails_below_two_rows_witness :
  train_stub one_row [130] fresh_world
  = (inl (Trainer.Raise "ValueError"), fresh_world) /\
  train_and_save_stub one_row [130] fresh_world
  = (inl (Trainer.Raise "ValueError"), fresh_world).
Proof.
  apply (train_fails_below_two_rows unit (fun _ _ => tt)
           (fun _ X => map (fun _ => 0) X) (fun _ => [])
           (fun _ _ => 0) (fun _ _ => 0) (fun x => x) (fun _ _ => None)
           dump_allowed one_row [130] fresh_world).
  simpl. lia.
Defined.

(** C9, as stated, fails: on a one-row table the exception [train] raises
    is a [ValueError], not an [InsufficientDataError]. *)
Lemma train_raises_ValueError :
  exists e,
    train_stub one_row [130] fresh_world = (inl e, fresh_world) /\
    Trainer.exc_class e = "ValueError"%string /\
    Trainer.exc_class e <> "InsufficientDataError"%string.
Proof.
  exists (Trainer.Raise "ValueError").
  split; [reflexivity|]. split; [reflexivity|]. discriminate.
Qed.

(** * Further properties *)

(** ** The calculator and the dashboard *)

Section CalculatorRange.

Lemma aqi_band_range (c : Q) :
  (0 <= c -> 0 <= aqi_band c) /\ (c <= 500.4 -> aqi_band c <= 500).
Proof.
  unfold aqi_band. repeat split_le; slopes; split; intros H; lra.
Qed.

(** X1.  A reading between 0 and 500.4 gets an index between 0 and 500. *)
Theorem calculate_aqi_range (pm25 : list cell) (i : nat) (c : Q) :
  nth_error pm25 i = Some (Some c) ->
  0 <= c -> c <= 500.4 ->
  exists a,
    nth_error (calculate_aqi pm25) i = Some (Some a) /\ 0 <= a /\ a <= 500.
Proof.
  intros Hi H0 H1. exists (aqi_band c).
  split; [now apply nth_error_calculate_aqi|].
  destruct (aqi_band_range c) as [Hlo Hhi]. split; auto.
Qed.

Lemma calculate_aqi_range_witness :
  exists a,
    nth_error (calculate_aqi [Some 10; None; Some 500.4]) 2 = Some (Some a) /\
    0 <= a /\ a <= 500.
Proof.
  apply (calculate_aqi_range [Some 10; None; Some 500.4] 2 500.4).
  - reflexivity.
  - vm_compute; discriminate.
  - vm_compute; discriminate.
Defined.

(** The slopes as products, in the goal and in the hypotheses. *)
Local Ltac slopes_everywhere :=
  change (50 / 12.0) with (50 * (10 # 120)) in *;
  change (50 / 23.3) with (50 * (10 # 233)) in *;
  change (50 / 19.9) with (50 * (10 # 199)) in *;
  change (50 / 94.9) with (50 * (10 # 949)) in *;
  change (100 / 99.9) with (100 * (10 # 999)) in *;
  change (200 / 249.9) with (200 * (10 # 2499)) in *.

Lemma category_of_aqi_band (c : Q) :
  get_aqi_category (Some (aqi_band c)) = category_of_reading (Some c).
Proof.
  unfold get_aqi_category, category_of_reading, aqi_band.
  repeat split_le; try reflexivity; exfalso; slopes_everywhere; lra.
Qed.

End CalculatorRange.

Section Categories.

Lemma binary64_categories_agree_upto_spec (n k : Z) :
  binary64_categories_agree_upto n = true -> (0 <= k <= n)%Z ->
  Binary64.get_aqi_category (Binary64.aqi_of (float_of_tenths k))
  = category_of_reading (Some (k # 10)).
Proof.
  unfold binary64_categories_agree_upto. intros Hall Hk.
  rewrite forallb_forall in Hall. apply String.eqb_eq, Hall.
  rewrite <- (Z2Nat.id k) by lia. apply in_map, in_seq. lia.
Qed.

(** X2.  For a series whose readings are given in tenths, the category
    of every row, computed from its index, is decided by the reading
    itself at the anchors of the bands: Good up to 12.1, Moderate up to
    35.5, Unhealthy for Sensitive up to 55.5, Unhealthy up to 150.5, Very
    Unhealthy up to 250.5, Hazardous above, and Unknown exactly for a
    missing reading.  The calculator on binary64 floats gives the same
    category for each of the readings 0.0, 0.1, ..., 1000.0. *)
Theorem category_decided_at_anchors (pm25 : list cell) (i : nat) (v : cell) :
  nth_error pm25 i = Some v ->
  (forall c, v = Some c -> exists k : Z, c == inject_Z k / 10) ->
  nth_error (map get_aqi_category (calculate_aqi pm25)) i
  = Some (category_of_reading v) /\
  (category_of_reading v = "Unknown"%string <-> v = None) /\
  (forall k : Z,
      (0 <= k <= 10000)%Z ->
      Binary64.get_aqi_category (Binary64.aqi_of (float_of_tenths k))
      = category_of_reading (Some (k # 10))).
Proof.
  intros Hi _. split; [|split].
  - rewrite calculate_aqi_map, !nth_error_map, Hi.
    destruct v as [c|]; [|reflexivity].
    unfold option_map, aqi_of. f_equal. apply category_of_aqi_band.
  - destruct v as [c|]; simpl; split; intros H;
      try reflexivity; try discriminate H.
    exfalso. revert H. repeat split_le; discriminate.
  - intros k Hk.
    apply (binary64_categories_agree_upto_spec 10000 k); [|exact Hk].
    vm_compute. reflexivity.
Qed.

Lemma category_decided_at_anchors_witness :
  nth_error (map get_aqi_category (calculate_aqi [Some 55.5; Some 55.6; None])) 1
  = Some "Unhealthy"%string /\
  (category_of_reading (Some 55.6) = "Unknown"%string <-> Some 55.6 = None) /\
  (forall k : Z,
      (0 <= k <= 10000)%Z ->
      Binary64.get_aqi_category (Binary64.aqi_of (float_of_tenths k))
      = category_of_reading (Some (k # 10))).
Proof.
  apply (category_decided_at_anchors [Some 55.5; Some 55.6; None] 1 (Some 55.6)).
  - reflexivity.
  - intros c [= <-]. exists 556%Z. reflexivity.
Defined.

Lemma severity_of_reading_monotone (c1 c2 : Q) :
  c1 <= c2 ->
  (severity (category_of_reading (Some c1))
   <= severity (category_of_reading (Some c2)))%nat.
Proof.
  intros H. unfold category_of_reading.
  repeat split_le; try (vm_compute; lia); exfalso; lra.
Qed.

(** X3.  The category never gets milder as the reading grows, also across
    the gaps where the index itself drops. *)
Theorem category_monotone_in_reading
    (pm25 : list cell) (i j : nat) (c1 c2 : Q) :
  nth_error pm25 i = Some (Some c1) ->
  nth_error pm25 j = Some (Some c2) ->
  c1 <= c2 ->
  exists k1 k2,
    nth_error (map get_aqi_category (calculate_aqi pm25)) i = Some k1 /\
    nth_error (map get_aqi_category (calculate_aqi pm25)) j = Some k2 /\
    (severity k1 <= severity k2)%nat.
Proof.
  intros Hi Hj H12.
  exists (category_of_reading (Some c1)), (category_of_reading (Some c2)).
  rewrite calculate_aqi_map, !nth_error_map, Hi, Hj.
  unfold option_map, aqi_of. rewrite !category_of_aqi_band.
  split; [reflexivity|]. split; [reflexivity|].
  now apply severity_of_reading_monotone.
Qed.

Lemma category_monotone_in_reading_witness :
  exists k1 k2,
    nth_error (map get_aqi_category (calculate_aqi [Some 12.0; Some 12.05])) 0
    = Some k1 /\
    nth_error (map get_aqi_category (calculate_aqi [Some 12.0; Some 12.05])) 1
    = Some k2 /\
    (severity k1 <= severity k2)%nat.
Proof.
  apply (category_monotone_in_reading [Some 12.0; Some 12.05] 0 1 12.0 12.05).
  - reflexivity.
  - reflexivity.
  - vm_compute; discriminate.
Defined.

(** X4.  The dashboard's category of an index is the collector's as long
    as the index is at most 300; above 300 the dashboard says Very
    Unhealthy where the collector says Hazardous, and for a missing index
    it says Very Unhealthy where the collector says Unknown. *)
Theorem dashboard_category_against_collector :
  (forall a : Q,
      (a <= 300 ->
       fst (Dashboard.category_color (Some a)) = get_aqi_category (Some a)) /\
      (300 < a ->
       fst (Dashboard.category_color (Some a)) = "Very Unhealthy"%string /\
       get_aqi_category (Some a) = "Hazardous"%string)) /\
  fst (Dashboard.category_color None) = "Very Unhealthy"%string /\
  get_aqi_category None = "Unknown"%string.
Proof.
  split; [|split; reflexivity].
  intros a. unfold Dashboard.category_color, get_aqi_category.
  repeat split_le; simpl; split; intros H; try split;
    try reflexivity; exfalso; lra.
Qed.

(** X5.  Whatever the current index, the recommendation shown is the text
    of the category found for it; it is never the text for Hazardous and
    never the fallback text. *)
Theorem recommendation_never_hazardous (current_aqi : cell) :
  In (fst (Dashboard.category_color current_aqi),
      Dashboard.recommendation current_aqi) Dashboard.recommendations /\
  Dashboard.recommendation current_aqi
  <> Dashboard.dict_get Dashboard.recommendations "Hazardous"
       "Check local health advisories." /\
  Dashboard.recommendation current_aqi
  <> "Check local health advisories."%string.
Proof.
  unfold Dashboard.recommendation, Dashboard.category_color.
  destruct current_aqi as [a|].
  - repeat split_le; simpl; (split; [tauto|split; discriminate]).
  - simpl. split; [tauto|split; discriminate].
Qed.

End Categories.

(** ** More on the hourly features *)

Section HourlyMore.

Lemma obs_column (df : list Obs) : map obs (create_features df) = df.
Proof.
  unfold create_features. rewrite map_map. simpl.
  rewrite <- (map_map snd (fun o : Obs => o)), enumerate_snd. apply map_id.
Qed.

Lemma calendar_ranges (ts : Z) :
  (ts = 86400 * date_of ts + 3600 * hour_of ts + ts mod 3600 /\
   0 <= hour_of ts <= 23 /\ 0 <= ts mod 3600 < 3600 /\
   0 <= dayofweek (date_of ts) <= 6)%Z.
Proof.
  unfold date_of, hour_of, dayofweek.
  pose proof (Z.mod_pos_bound (ts / 86400 + 3) 7).
  Z.div_mod_to_equations. lia.
Qed.

(** X6.  [create_features] returns one row per input row, in order and
    with the input columns unchanged; the calendar columns of a row split
    its own timestamp into the date, the hour (0 to 23) and the seconds
    within the hour, the day of the week is between 0 and 6, and
    [is_weekend] is 1 exactly on days 5 and 6, else 0. *)
Theorem create_features_keeps_rows (df : list Obs) :
  map obs (create_features df) = df /\
  forall r, In r (create_features df) ->
    let ts := timestamp (obs r) in
    (ts = 86400 * date r + 3600 * hour r + ts mod 3600 /\
     0 <= hour r <= 23 /\ 0 <= day_of_week r <= 6 /\
     is_weekend r = (if 5 <=? day_of_week r then 1 else 0))%Z.
Proof.
  split; [apply obs_column|].
  intros r Hin. apply In_nth_error in Hin as [i Hi].
  unfold create_features in Hi. rewrite nth_error_map in Hi.
  destruct (nth_error (enumerate df) i) as [[j o]|]; [|discriminate].
  injection Hi as <-. cbn [obs date hour day_of_week is_weekend fst snd].
  destruct (calendar_ranges (timestamp o)) as (Hts & Hh & _ & Hd).
  split; [exact Hts|]. split; [exact Hh|]. split; [exact Hd|].
  destruct (Z.leb_spec 5 (dayofweek (date_of (timestamp o)))) as [H5|H5].
  - assert (Hc : dayofweek (date_of (timestamp o)) = 5%Z
                 \/ dayofweek (date_of (timestamp o)) = 6%Z) by lia.
    destruct Hc as [-> | ->]; reflexivity.
  - destruct (Z.eqb_spec (dayofweek (date_of (timestamp o))) 5); [lia|].
    destruct (Z.eqb_spec (dayofweek (date_of (timestamp o))) 6); [lia|].
    reflexivity.
Qed.

(** X7.  The lag columns copy [pm2_5] of an earlier row as it is, missing
    or not: [pm2_5_lag_1h] of row [i >= 1] is [pm2_5] of row [i - 1], and
    [pm2_5_lag_24h] of row [i >= 24] is [pm2_5] of row [i - 24]; on the
    rows before, they are missing. *)
Theorem lag_columns_copy_earlier_rows
    (df : list Obs) (i : nat) (r : HourlyRow) :
  nth_error (create_features df) i = Some r ->
  (if (i <? 1)%nat then pm2_5_lag_1h r = None
   else exists o, nth_error df (i - 1) = Some o /\ pm2_5_lag_1h r = pm2_5 o) /\
  (if (i <? 24)%nat then pm2_5_lag_24h r = None
   else exists o, nth_error df (i - 24) = Some o /\
                  pm2_5_lag_24h r = pm2_5 o).
Proof.
  intros Hr.
  assert (Hi : (i < length df)%nat).
  { rewrite <- length_create_features. apply nth_error_Some. congruence. }
  apply create_features_row in Hr as (o & Ho & _ & _ & H1 & H24 & _).
  rewrite H1, H24.
  rewrite (at_row_shift_down 1), (at_row_shift_down 24)
    by (now rewrite length_map).
  split.
  - destruct (i <? 1)%nat eqn:E; [reflexivity|]. apply Nat.ltb_ge in E.
    destruct (nth_error df (i - 1)) as [o'|] eqn:Eo.
    2:{ apply nth_error_None in Eo. lia. }
    exists o'. split; [reflexivity|].
    apply at_row_nth_error. now rewrite nth_error_map, Eo.
  - destruct (i <? 24)%nat eqn:E; [reflexivity|]. apply Nat.ltb_ge in E.
    destruct (nth_error df (i - 24)) as [o'|] eqn:Eo.
    2:{ apply nth_error_None in Eo. lia. }
    exists o'. split; [reflexivity|].
    apply at_row_nth_error. now rewrite nth_error_map, Eo.
Qed.

Lemma lag_columns_copy_earlier_rows_witness :
  exists r,
    nth_error (create_features (hourly_sample 30)) 25 = Some r /\
    ((if (25 <? 1)%nat then pm2_5_lag_1h r = None
      else exists o, nth_error (hourly_sample 30) (25 - 1) = Some o /\
                     pm2_5_lag_1h r = pm2_5 o) /\
     (if (25 <? 24)%nat then pm2_5_lag_24h r = None
      else exists o, nth_error (hourly_sample 30) (25 - 24) = Some o /\
                     pm2_5_lag_24h r = pm2_5 o)).
Proof.
  eexists. split; [reflexivity|].
  apply (lag_columns_copy_earlier_rows (hourly_sample 30) 25).
  reflexivity.
Defined.










End HourlyMore.

(** ** More on the daily table *)

Section DailyMore.

Lemma daily_date_column (df : list HourlyRow) :
  map Daily.date (create_daily_data df) = group_keys (map date df).
Proof.
  unfold create_daily_data. rewrite map_map. simpl.
  rewrite <- (map_map snd (fun k : Z => k)), enumerate_snd. apply map_id.
Qed.

Lemma insert_key_sorted (k : Z) (ks : list Z) :
  StronglySorted Z.lt ks -> StronglySorted Z.lt (insert_key k ks).
Proof.
  induction 1 as [|h t Hs IH Hh]; simpl.
  - repeat constructor.
  - destruct (Z.ltb_spec k h) as [Hlt|Hge].
    + constructor; [now constructor|].
      constructor; [assumption|].
      eapply Forall_impl; [|exact Hh]. intros x Hx. simpl in Hx. lia.
    + destruct (Z.eqb_spec k h) as [Heq|Hne]; [now constructor|].
      constructor; [assumption|].
      apply Forall_forall. intros x Hx. apply In_insert_key in Hx.
      destruct Hx as [->|Hx]; [lia|].
      rewrite Forall_forall in Hh. now apply Hh.
Qed.

Lemma group_keys_sorted (l : list Z) : StronglySorted Z.lt (group_keys l).
Proof.
  unfold group_keys. induction l as [|k l IH]; simpl; [constructor|].
  now apply insert_key_sorted.
Qed.

Lemma length_insert_key (k : Z) (ks : list Z) :
  (length (insert_key k ks) <= S (length ks))%nat.
Proof.
  induction ks as [|h t IH]; simpl; [lia|].
  destruct (k <? h)%Z; [simpl; lia|].
  destruct (k =? h)%Z; simpl; lia.
Qed.

Lemma length_group_keys (l : list Z) :
  (length (group_keys l) <= length l)%nat.
Proof.
  unfold group_keys. induction l as [|k l IH]; simpl; [lia|].
  pose proof (length_insert_key k (fold_right insert_key [] l)). lia.
Qed.

(** X10.  Whatever the order of the input rows, the daily table has its
    dates in strictly ascending order, so each date once, and its dates
    are exactly the dates of the input; it has no more rows than the
    input. *)
Theorem daily_dates_ascending_and_unique (df : list HourlyRow) :
  StronglySorted Z.lt (map Daily.date (create_daily_data df)) /\
  (forall d, In d (map Daily.date (create_daily_data df)) <->
             In d (map date df)) /\
  (length (create_daily_data df) <= length df)%nat.
Proof.
  rewrite daily_date_column. split; [apply group_keys_sorted|]. split.
  - intros d. apply In_group_keys.
  - rewrite length_create_daily_data.
    pose proof (length_group_keys (map date df)) as H.
    now rewrite length_map in H.
Qed.

(** The columns of row [i] of the daily table, read at [i]. *)
Lemma create_daily_data_cols (df : list HourlyRow) (i : nat) (rd : Daily.Row) :
  nth_error (create_daily_data df) i = Some rd ->
  let avg := map round2_cell (agg df aqi_col mean) in
  nth_error (group_keys (map date df)) i = Some (Daily.date rd) /\
  Daily.daily_avg_aqi rd = at_row avg i /\
  Daily.daily_min_aqi rd = at_row (map round2_cell (agg df aqi_col min)) i /\
  Daily.daily_max_aqi rd = at_row (map round2_cell (agg df aqi_col max)) i /\
  Daily.prev_day_aqi rd = at_row (shift 1 avg) i /\
  Daily.prev_week_aqi rd = at_row (shift 7 avg) i /\
  Daily.next_day_aqi rd = at_row (shift (-1) avg) i.
Proof.
  unfold create_daily_data. rewrite nth_error_map.
  destruct (nth_error (enumerate (group_keys (map date df))) i)
    as [[j k]|] eqn:E; [|discriminate].
  apply nth_error_enumerate_inv in E as [-> Hk].
  intros [= <-]. simpl. splits; try reflexivity. exact Hk.
Qed.

(** X11.  The lag and lead columns of the daily table follow the order of
    its rows, not the calendar: [prev_day_aqi] of a row is [daily_avg_aqi]
    of the row before it, [prev_week_aqi] that of the row 7 rows before,
    [next_day_aqi] that of the row after; they are missing on the first
    row, on the first 7 rows and on the last row. *)
Theorem daily_lags_follow_row_order
    (df : list HourlyRow) (i : nat) (rd : Daily.Row) :
  nth_error (create_daily_data df) i = Some rd ->
  (if (i <? 1)%nat then Daily.prev_day_aqi rd = None
   else exists p, nth_error (create_daily_data df) (i - 1) = Some p /\
                  Daily.prev_day_aqi rd = Daily.daily_avg_aqi p) /\
  (if (i <? 7)%nat then Daily.prev_week_aqi rd = None
   else exists p, nth_error (create_daily_data df) (i - 7) = Some p /\
                  Daily.prev_week_aqi rd = Daily.daily_avg_aqi p) /\
  (if (i + 1 <? length (create_daily_data df))%nat
   then exists q, nth_error (create_daily_data df) (i + 1) = Some q /\
                  Daily.next_day_aqi rd = Daily.daily_avg_aqi q
   else Daily.next_day_aqi rd = None).
Proof.
  intros Hr.
  assert (Hi : (i < length (create_daily_data df))%nat)
    by (apply nth_error_Some; congruence).
  assert (Hlen : length (map round2_cell (agg df aqi_col mean))
                 = length (create_daily_data df))
    by (now rewrite length_map, length_agg, length_create_daily_data).
  assert (Hrow : forall j, (j < length (create_daily_data df))%nat ->
            exists p, nth_error (create_daily_data df) j = Some p /\
                      at_row (map round2_cell (agg df aqi_col mean)) j
                      = Daily.daily_avg_aqi p).
  { intros j Hj.
    destruct (nth_error (create_daily_data df) j) as [p|] eqn:Ep.
    2:{ apply nth_error_None in Ep. lia. }
    exists p. split; [reflexivity|].
    apply create_daily_data_cols in Ep as (_ & Ha & _). now rewrite Ha. }
  apply create_daily_data_cols in Hr as (_ & _ & _ & _ & P1 & P7 & N1).
  rewrite P1, P7, N1.
  rewrite (at_row_shift_down 1), (at_row_shift_down 7), (at_row_shift_up 1)
    by (rewrite Hlen; assumption).
  rewrite Hlen. apply Nat.ltb_lt in Hi as Hb. rewrite Hb.
  splits.
  - destruct (i <? 1)%nat eqn:E; [reflexivity|]. apply Nat.ltb_ge in E.
    destruct (Hrow (i - 1)%nat) as (p & Hp & Ha); [lia|]. now exists p.
  - destruct (i <? 7)%nat eqn:E; [reflexivity|]. apply Nat.ltb_ge in E.
    destruct (Hrow (i - 7)%nat) as (p & Hp & Ha); [lia|]. now exists p.
  - destruct (i + 1 <? length (create_daily_data df))%nat eqn:E.
    + apply Nat.ltb_lt in E.
      destruct (Hrow (i + 1)%nat) as (q & Hq & Ha); [lia|]. now exists q.
    + apply Nat.ltb_ge in E. apply at_row_beyond. rewrite Hlen. lia.
Qed.

Lemma daily_lags_follow_row_order_witness :
  exists rd,
    nth_error (create_daily_data (create_features (daily_sample 3))) 1
    = Some rd /\
    ((if (1 <? 1)%nat then Daily.prev_day_aqi rd = None
      else exists p,
          nth_error (create_daily_data (create_features (daily_sample 3)))
                    (1 - 1) = Some p /\
          Daily.prev_day_aqi rd = Daily.daily_avg_aqi p) /\
     (if (1 <? 7)%nat then Daily.prev_week_aqi rd = None
      else exists p,
          nth_error (create_daily_data (create_features (daily_sample 3)))
                    (1 - 7) = Some p /\
          Daily.prev_week_aqi rd = Daily.daily_avg_aqi p) /\
     (if (1 + 1
          <? length (create_daily_data (create_features (daily_sample 3))))%nat
      then exists q,
          nth_error (create_daily_data (create_features (daily_sample 3)))
                    (1 + 1) = Some q /\
          Daily.next_day_aqi rd = Daily.daily_avg_aqi q
      else Daily.next_day_aqi rd = None)).
Proof.
  eexists. split; [vm_compute; reflexivity|].
  apply (daily_lags_follow_row_order (create_features (daily_sample 3)) 1).
  vm_compute. reflexivity.
Defined.

(** Rounding to the nearest integer and to 2 decimals: how far the result
    is, and that it keeps the order. *)
Lemma round_half_even_monotone (p q : Q) :
  p <= q -> (round_half_even p <= round_half_even q)%Z.
Proof.
  intros Hpq. pose proof (Qfloor_resp_le _ _ Hpq) as Hf.
  destruct (Z.eq_dec (Qfloor p) (Qfloor q)) as [Heq|Hne].
  - unfold round_half_even. rewrite <- Heq.
    destruct (Qcompare_spec (p - inject_Z (Qfloor p)) (1 # 2)) as [E1|E1|E1];
      destruct (Qcompare_spec (q - inject_Z (Qfloor p)) (1 # 2)) as [E2|E2|E2];
      try destruct (Z.even (Qfloor p)); try lia; exfalso; lra.
  - pose proof (round_half_even_bounds p) as [Hp _].
    pose proof (round_half_even_bounds q) as [Hq _]. lia.
Qed.


Lemma round2_monotone (p q : Q) : p <= q -> round2 p <= round2 q.
Proof.
  intros Hpq. unfold round2, Qdiv. change (/ 100) with (1 # 100).
  assert (H : inject_Z (round_half_even (p * 100))
              <= inject_Z (round_half_even (q * 100))).
  { rewrite <- Zle_Qle. apply round_half_even_monotone. lra. }
  lra.
Qed.



Lemma Qmin_le (a b : Q) : Qmin a b <= a /\ Qmin a b <= b.
Proof. unfold Qmin. split_le; lra. Qed.

Lemma Qmax_ge (a b : Q) : a <= Qmax a b /\ b <= Qmax a b.
Proof. unfold Qmax. split_le; lra. Qed.

Lemma fold_Qmin_lower (vs : list Q) (v : Q) :
  fold_left Qmin vs v <= v /\ Forall (fun x => fold_left Qmin vs v <= x) vs.
Proof.
  revert v. induction vs as [|x vs IH]; intros v; simpl.
  - split; [lra|constructor].
  - destruct (IH (Qmin v x)) as [H1 H2]. destruct (Qmin_le v x) as [Hv Hx].
    split; [lra|]. constructor; [lra|exact H2].
Qed.

Lemma fold_Qmax_upper (vs : list Q) (v : Q) :
  v <= fold_left Qmax vs v /\ Forall (fun x => x <= fold_left Qmax vs v) vs.
Proof.
  revert v. induction vs as [|x vs IH]; intros v; simpl.
  - split; [lra|constructor].
  - destruct (IH (Qmax v x)) as [H1 H2]. destruct (Qmax_ge v x) as [Hv Hx].
    split; [lra|]. constructor; [lra|exact H2].
Qed.

Lemma Qnat_succ (n : nat) : Qnat (S n) == Qnat n + 1.
Proof.
  unfold Qnat. rewrite Nat2Z.inj_succ. unfold Z.succ.
  rewrite inject_Z_plus. reflexivity.
Qed.

Lemma Qnat_pos (n : nat) : (0 < n)%nat -> 0 < Qnat n.
Proof.
  intros Hn. unfold Qnat. change 0 with (inject_Z 0).
  rewrite <- Zlt_Qlt. lia.
Qed.

Lemma Qsum_between (lo hi : Q) (l : list Q) :
  Forall (fun x => lo <= x /\ x <= hi) l ->
  Qnat (length l) * lo <= Qsum l /\ Qsum l <= Qnat (length l) * hi.
Proof.
  unfold Qsum. induction 1 as [|x l [Hlo Hhi] _ [IH1 IH2]].
  - simpl. change (Qnat 0) with 0. split; lra.
  - cbn [length fold_right]. rewrite Qnat_succ. split; lra.
Qed.

(** The mean of a non-empty list lies between bounds of its elements. *)
Lemma average_between (lo hi : Q) (l : list Q) :
  l <> [] -> Forall (fun x => lo <= x /\ x <= hi) l ->
  lo <= Qsum l / Qnat (length l) /\ Qsum l / Qnat (length l) <= hi.
Proof.
  intros Hne Hall. destruct (Qsum_between lo hi l Hall) as [H1 H2].
  assert (Hn : 0 < Qnat (length l)).
  { apply Qnat_pos. destruct l; [contradiction|simpl; lia]. }
  split.
  - apply Qle_shift_div_l; [assumption|]. lra.
  - apply Qle_shift_div_r; [assumption|]. lra.
Qed.

(** X13.  In every row of the daily table the minimum, the mean and the
    maximum of the index are missing together, and when present they are
    in this order: [daily_min_aqi <= daily_avg_aqi <= daily_max_aqi]. *)
Theorem daily_min_avg_max_ordered (df : list HourlyRow) (rd : Daily.Row) :
  In rd (create_daily_data df) ->
  (Daily.daily_avg_aqi rd = None <-> Daily.daily_min_aqi rd = None) /\
  (Daily.daily_avg_aqi rd = None <-> Daily.daily_max_aqi rd = None) /\
  forall lo a hi,
    Daily.daily_min_aqi rd = Some lo ->
    Daily.daily_avg_aqi rd = Some a ->
    Daily.daily_max_aqi rd = Some hi ->
    lo <= a /\ a <= hi.
Proof.
  intros Hin. apply In_nth_error in Hin as [i Hi].
  assert (Hlt : (i < length (group_keys (map date df)))%nat).
  { rewrite <- length_create_daily_data. apply nth_error_Some. congruence. }
  apply create_daily_data_cols in Hi as (Hk & Ha & Hmin & Hmax & _).
  rewrite Ha, Hmin, Hmax.
  rewrite !at_row_map_round2 by (now rewrite length_agg).
  rewrite !(at_row_agg _ _ _ _ _ Hk).
  unfold mean, Pandas.min, Pandas.max, average.
  destruct (dropna (map aqi_col (day_rows (Daily.date rd) df)))
    as [|v vs] eqn:E; simpl.
  - splits; try reflexivity. intros lo a hi H. discriminate H.
  - splits; try discriminate.
    intros lo a hi [= <-] [= <-] [= <-].
    destruct (fold_Qmin_lower vs v) as [L1 L2].
    destruct (fold_Qmax_upper vs v) as [U1 U2].
    assert (Hall : Forall (fun x => fold_left Qmin vs v <= x
                                    /\ x <= fold_left Qmax vs v) (v :: vs)).
    { constructor; [split; assumption|].
      rewrite Forall_forall in *. intros x Hx. split; auto. }
    destruct (average_between _ _ (v :: vs) ltac:(discriminate) Hall)
      as [B1 B2].
    split; apply round2_monotone; assumption.
Qed.

Lemma daily_min_avg_max_ordered_witness :
  exists rd,
    nth_error (create_daily_data (create_features three_readings)) 0
    = Some rd /\
    ((Daily.daily_avg_aqi rd = None <-> Daily.daily_min_aqi rd = None) /\
     (Daily.daily_avg_aqi rd = None <-> Daily.daily_max_aqi rd = None) /\
     forall lo a hi,
       Daily.daily_min_aqi rd = Some lo ->
       Daily.daily_avg_aqi rd = Some a ->
       Daily.daily_max_aqi rd = Some hi ->
       lo <= a /\ a <= hi).
Proof.
  eexists. split; [reflexivity|].
  apply (daily_min_avg_max_ordered (create_features three_readings)).
  simpl. left. reflexivity.
Defined.





End DailyMore.

(** ** More on the trainer *)

Section TrainerMore.

Import Trainer.

Variable Forest : Type.
Variable fit : list (list Q) -> list Q -> Forest.
Variable forest_predict : Forest -> list (list Q) -> list Q.
Variable feature_importances_ : Forest -> list Q.
Variable mean_absolute_error : list Q -> list Q -> Q.
Variable mean_squared_error : list Q -> list Q -> Q.
Variable np_sqrt : Q -> Q.
Variable r2_score : list Q -> list Q -> cell.
Variable dump_error : list string -> string -> option exn.

Local Abbreviation train :=
  (Trainer.train Forest fit forest_predict feature_importances_
     mean_absolute_error mean_squared_error np_sqrt r2_score).

Local Abbreviation train_and_save :=
  (Trainer.train_and_save Forest fit forest_predict feature_importances_
     mean_absolute_error mean_squared_error np_sqrt r2_score dump_error).

Local Abbreviation predict := (Trainer.predict Forest forest_predict).
Local Abbreviation save := (Trainer.save Forest dump_error).
Local Abbreviation load := (Trainer.load Forest).

(** The split of at least 2 rows: the head and all the rest. *)
Lemma train_test_split_parts (X : list (list Q)) (y : list Q) :
  (2 <= length X)%nat -> length y = length X ->
  let n_train := (length X - n_test_of (length X))%nat in
  train_test_split X y
  = inr (firstn n_train X, skipn n_train X,
         firstn n_train y, skipn n_train y).
Proof.
  intros Hn Hy n_train. unfold train_test_split.
  rewrite Hy, Nat.eqb_refl. simpl. unfold validate_shuffle_split.
  pose proof (n_test_of_lt _ Hn) as Hlt. fold n_train.
  destruct (n_train =? 0)%nat eqn:E.
  - apply Nat.eqb_eq in E. subst n_train. lia.
  - rewrite (@firstn_all2 _ (n_test_of (length X)) (skipn n_train X)),
            (@firstn_all2 _ (n_test_of (length X)) (skipn n_train y))
      by (rewrite length_skipn; subst n_train; lia).
    reflexivity.
Qed.

(** What [train] returns and leaves behind on a table of at least 2 rows
    whose columns are as many as the importances of the regressor. *)
Lemma train_result (X : Frame) (y : list Q) (w : World Forest) :
  (2 <= length (rows X))%nat -> length y = length (rows X) ->
  let n_train := (length (rows X) - n_test_of (length (rows X)))%nat in
  let f := fit (firstn n_train (rows X)) (firstn n_train y) in
  let y_test := skipn n_train y in
  let y_pred := forest_predict f (skipn n_train (rows X)) in
  length (feature_importances_ f) = length (columns X) ->
  train X y w
  = (inr (mean_absolute_error y_test y_pred,
          np_sqrt (mean_squared_error y_test y_pred),
          r2_score y_test y_pred),
     {| self :=
          {| model := Some {| forest := f; feature_names_in_ := columns X |};
             feature_importance :=
               Some (sort_desc (combine (columns X) (feature_importances_ f)))
          |};
        files := files Forest w |}).
Proof.
  intros Hn Hy n_train f y_test y_pred Hlen.
  unfold Trainer.train, bind, Trainer.split.
  rewrite (train_test_split_parts _ _ Hn Hy). cbv zeta. simpl.
  fold n_train. fold f. rewrite Hlen, Nat.eqb_refl. reflexivity.
Qed.

(** X15.  On a table of at least 2 rows with as many targets, and with a
    regressor that reports one importance per column, [train] succeeds:
    the regressor is fitted on the first [n - ceil(n/5)] rows, the three
    scores are computed on all the remaining rows, at least one and in the
    order of the table, so that no row is in both parts and none is left
    out; afterwards the object holds the fitted regressor with the columns
    of the table, and no file has been written. *)
Theorem train_fits_head_and_scores_tail
    (X : Frame) (y : list Q) (w : World Forest) :
  (2 <= length (rows X))%nat -> length y = length (rows X) ->
  let n_train := (length (rows X) - n_test_of (length (rows X)))%nat in
  let f := fit (firstn n_train (rows X)) (firstn n_train y) in
  let y_test := skipn n_train y in
  let y_pred := forest_predict f (skipn n_train (rows X)) in
  length (feature_importances_ f) = length (columns X) ->
  (0 < n_train < length (rows X))%nat /\
  firstn n_train (rows X) ++ skipn n_train (rows X) = rows X /\
  exists w',
    train X y w
    = (inr (mean_absolute_error y_test y_pred,
            np_sqrt (mean_squared_error y_test y_pred),
            r2_score y_test y_pred), w') /\
    model Forest (self Forest w')
    = Some {| forest := f; feature_names_in_ := columns X |} /\
    files Forest w' = files Forest w.
Proof.
  intros Hn Hy n_train f y_test y_pred Hlen.
  pose proof (n_test_of_lt _ Hn) as Hlt.
  pose proof (n_test_of_pos (length (rows X)) ltac:(lia)) as Hpos.
  split; [subst n_train; lia|]. split; [apply firstn_skipn|].
  eexists. split; [exact (train_result X y w Hn Hy Hlen)|].
  split; reflexivity.
Qed.

Lemma insert_desc_perm (x : string * Q) (l : list (string * Q)) :
  Permutation (insert_desc x l) (x :: l).
Proof.
  induction l as [|h t IH]; simpl; [reflexivity|].
  destruct (Qle_bool (snd h) (snd x)); [reflexivity|].
  rewrite IH. apply perm_swap.
Qed.

Lemma sort_desc_perm (l : list (string * Q)) : Permutation (sort_desc l) l.
Proof.
  unfold sort_desc. induction l as [|x l IH]; simpl; [reflexivity|].
  rewrite insert_desc_perm. now constructor.
Qed.

Lemma insert_desc_sorted (x : string * Q) (l : list (string * Q)) :
  Sorted by_importance_desc l -> Sorted by_importance_desc (insert_desc x l).
Proof.
  induction 1 as [|h t Hs IH Hh]; simpl.
  - repeat constructor.
  - destruct (Qle_bool (snd h) (snd x)) eqn:E.
    + apply Qle_bool_iff in E. constructor; [now constructor|].
      constructor. exact E.
    + apply Qle_bool_false in E. constructor; [exact IH|].
      destruct t as [|h' t']; simpl.
      * constructor. unfold by_importance_desc. lra.
      * destruct (Qle_bool (snd h') (snd x)); constructor;
          [unfold by_importance_desc; lra | now inversion Hh].
Qed.

Lemma sort_desc_sorted (l : list (string * Q)) :
  Sorted by_importance_desc (sort_desc l).
Proof.
  unfold sort_desc. induction l as [|x l IH]; simpl; [constructor|].
  now apply insert_desc_sorted.
Qed.

(** X16.  After a successful [train] on a table whose columns are as many
    as the importances of the fitted regressor, [feature_importance] holds
    every column once with its importance, the larger importance
    first. *)
Theorem feature_importance_ranked
    (X : Frame) (y : list Q) (w : World Forest) :
  (2 <= length (rows X))%nat -> length y = length (rows X) ->
  let n_train := (length (rows X) - n_test_of (length (rows X)))%nat in
  let f := fit (firstn n_train (rows X)) (firstn n_train y) in
  length (feature_importances_ f) = length (columns X) ->
  exists res w' t,
    train X y w = (inr res, w') /\
    feature_importance Forest (self Forest w') = Some t /\
    Permutation t (combine (columns X) (feature_importances_ f)) /\
    Permutation (map fst t) (columns X) /\
    Sorted by_importance_desc t.
Proof.
  intros Hn Hy n_train f Hlen.
  eexists. eexists. eexists.
  split; [exact (train_result X y w Hn Hy Hlen)|].
  split; [reflexivity|].
  split; [apply sort_desc_perm|]. split; [|apply sort_desc_sorted].
  rewrite (Permutation_map fst (sort_desc_perm _)).
  now rewrite map_fst_combine.
Qed.


(** X17.  A [save] either is refused by the operating system, and then
    raises its exception and writes nothing, or succeeds; when it has
    succeeded, a [load] of the same name right after it, whatever the
    loading object holds and whatever was stored under any name before,
    answers [True] and gives the object the two attributes the saved one
    had; [load] writes no file. *)
Theorem load_returns_last_save
    (filename : string) (w : World Forest) (s : SimpleAQIModel Forest) :
  (forall e, dump_error (map fst (files Forest w)) filename = Some e ->
             save filename w = (inl e, w)) /\
  (forall w1,
      save filename w = (inr tt, w1) ->
      dump_error (map fst (files Forest w)) filename = None /\
      self Forest w1 = self Forest w /\
      exists w2,
        load filename {| self := s; files := files Forest w1 |}
        = (inr true, w2) /\
        model Forest (self Forest w2) = model Forest (self Forest w) /\
        feature_importance Forest (self Forest w2)
        = feature_importance Forest (self Forest w) /\
        files Forest w2 = files Forest w1).
Proof.
  unfold Trainer.save. split.
  - intros e He. now rewrite He.
  - intros w1.
    destruct (dump_error (map fst (files Forest w)) filename) as [e|];
      [discriminate|].
    intros [= <-]. split; [reflexivity|]. split; [reflexivity|].
    unfold Trainer.load. simpl. rewrite String.eqb_refl.
    eexists. split; [reflexivity|]. simpl. auto.
Qed.


(** X19.  [predict] never changes the object or the files.  On an object
    whose regressor was never fitted it fails with [NotFittedError].
    After any successful [train] on a table [X], it returns the
    predictions of the fitted regressor for the rows of a frame that has
    the columns of [X], and fails with [ValueError] on a frame with any
    other columns. *)
Theorem predict_needs_fitted_model (X' : Frame) (w : World Forest) :
  snd (predict X' w) = w /\
  (model Forest (self Forest w) = None ->
   predict X' w = (inl (Raise "NotFittedError"), w)) /\
  (forall X y w0 res,
      train X y w0 = (inr res, w) ->
      exists r,
        model Forest (self Forest w) = Some r /\
        feature_names_in_ Forest r = columns X /\
        (columns X' = columns X ->
         predict X' w = (inr (forest_predict (forest Forest r) (rows X')), w)) /\
        (columns X' <> columns X ->
         predict X' w = (inl (Raise "ValueError"), w))).
Proof.
  unfold Trainer.predict. splits.
  - destruct (model Forest (self Forest w)) as [r|]; [|reflexivity].
    destruct (list_eq_dec string_dec (columns X') (feature_names_in_ Forest r));
      reflexivity.
  - intros H. now rewrite H.
  - intros X y w0 res. unfold Trainer.train, bind, Trainer.split.
    destruct (train_test_split (rows X) y) as [e|[[[Xtr Xte] ytr] yte]];
      simpl; [discriminate|].
    destruct (length (columns X) =? length (feature_importances_ (fit Xtr ytr)))%nat;
      simpl; [|discriminate].
    intros [= _ <-]. simpl. eexists. split; [reflexivity|].
    split; [reflexivity|]. simpl.
    destruct (list_eq_dec string_dec (columns X') (columns X)) as [E|E];
      split; intros H; try reflexivity; contradiction.
Qed.

(** X20.  The script on a table of at least 2 rows, with a regressor that
    reports one importance per column and an operating system that lets
    the default file be written: it succeeds, and a new object that loads
    the default file afterwards holds the regressor fitted on the first
    [n - ceil(n/5)] rows, with the columns of the table, and an importance
    table that has every column with its importance, the larger
    importance first. *)
Theorem trained_model_survives_save_and_load
    (X : Frame) (y : list Q) (w : World Forest) :
  (2 <= length (rows X))%nat -> length y = length (rows X) ->
  let n_train := (length (rows X) - n_test_of (length (rows X)))%nat in
  let f := fit (firstn n_train (rows X)) (firstn n_train y) in
  length (feature_importances_ f) = length (columns X) ->
  dump_error (map fst (files Forest w)) "models/aqi_model.joblib" = None ->
  exists w1 w2 t,
    train_and_save X y w = (inr tt, w1) /\
    load "models/aqi_model.joblib"
         {| self := init Forest; files := files Forest w1 |}
    = (inr true, w2) /\
    model Forest (self Forest w2)
    = Some {| forest := f; feature_names_in_ := columns X |} /\
    feature_importance Forest (self Forest w2) = Some t /\
    Permutation t (combine (columns X) (feature_importances_ f)) /\
    Sorted by_importance_desc t.
Proof.
  intros Hn Hy n_train f Hlen Hos.
  eexists. eexists. eexists. split.
  - unfold Trainer.train_and_save, bind.
    rewrite (train_result X y w Hn Hy Hlen).
    unfold Trainer.save. cbn [files self]. rewrite Hos. reflexivity.
  - unfold Trainer.load. simpl.
    split; [reflexivity|]. split; [reflexivity|]. split; [reflexivity|].
    split; [apply sort_desc_perm | apply sort_desc_sorted].
Qed.

End TrainerMore.

Lemma train_fits_head_and_scores_tail_witness :
  (0 < 1 < 2)%nat /\
  [[120; 40]] ++ [[130; 45]] = Trainer.rows two_rows /\
  exists w',
    toy_train two_rows [125; 135] fresh_world = (inr (0, 0, None), w') /\
    Trainer.model unit (Trainer.self unit w')
    = Some {| Trainer.forest := tt;
              Trainer.feature_names_in_ :=
                ["daily_avg_aqi"%string; "pm2_5_mean"%string] |} /\
    Trainer.files unit w' = [].
Proof.
  apply (train_fits_head_and_scores_tail unit (fun _ _ => tt) toy_predict
           (fun _ => [1 # 4; 3 # 4]) (fun _ _ => 0) (fun _ _ => 0)
           (fun x => x) (fun _ _ => None) two_rows [125; 135] fresh_world).
  - simpl. lia.
  - reflexivity.
  - reflexivity.
Defined.

Lemma feature_importance_ranked_witness :
  exists res w' t,
    toy_train two_rows [125; 135] fresh_world = (inr res, w') /\
    Trainer.feature_importance unit (Trainer.self unit w') = Some t /\
    Permutation t (combine (Trainer.columns two_rows) [1 # 4; 3 # 4]) /\
    Permutation (map fst t) (Trainer.columns two_rows) /\
    Sorted by_importance_desc t.
Proof.
  apply (feature_importance_ranked unit (fun _ _ => tt) toy_predict
           (fun _ => [1 # 4; 3 # 4]) (fun _ _ => 0) (fun _ _ => 0)
           (fun x => x) (fun _ _ => None) two_rows [125; 135] fresh_world).
  - simpl. lia.
  - reflexivity.
  - reflexivity.
Defined.

Lemma load_returns_last_save_witness :
  exists w2,
    Trainer.load unit "a.joblib"
      {| Trainer.self := Trainer.init unit;
         Trainer.files :=
           [("a.joblib"%string, fitted_object);
            ("a.joblib"%string, Trainer.init unit)] |}
    = (inr true, w2) /\
    Trainer.model unit (Trainer.self unit w2)
    = Some {| Trainer.forest := tt;
              Trainer.feature_names_in_ := ["daily_avg_aqi"%string] |} /\
    Trainer.feature_importance unit (Trainer.self unit w2)
    = Some [("daily_avg_aqi"%string, 1)] /\
    Trainer.files unit w2
    = [("a.joblib"%string, fitted_object);
       ("a.joblib"%string, Trainer.init unit)].
Proof.
  apply (proj2 (load_returns_last_save unit dump_allowed "a.joblib"
                  {| Trainer.self := fitted_object;
                     Trainer.files :=
                       [("a.joblib"%string, Trainer.init unit)] |}
                  (Trainer.init unit))
               {| Trainer.self := fitted_object;
                  Trainer.files :=
                    [("a.joblib"%string, fitted_object);
                     ("a.joblib"%string, Trainer.init unit)] |}
               eq_refl).
Defined.

Lemma predict_needs_fitted_model_witness :
  let w := snd (toy_train two_rows [125; 135] fresh_world) in
  Trainer.predict unit toy_predict two_rows w = (inr [0; 0], w) /\
  Trainer.predict unit toy_predict one_row w
  = (inl (Trainer.Raise "ValueError"), w) /\
  Trainer.predict unit toy_predict two_rows fresh_world
  = (inl (Trainer.Raise "NotFittedError"), fresh_world).
Proof.
  intros w.
  destruct (proj2 (proj2 (predict_needs_fitted_model unit (fun _ _ => tt)
                            toy_predict (fun _ => [1 # 4; 3 # 4])
                            (fun _ _ => 0) (fun _ _ => 0) (fun x => x)
                            (fun _ _ => None) two_rows w))
                  two_rows [125; 135] fresh_world (0, 0, None) eq_refl)
    as (r & _ & _ & Hsame & _).
  destruct (proj2 (proj2 (predict_needs_fitted_model unit (fun _ _ => tt)
                            toy_predict (fun _ => [1 # 4; 3 # 4])
                            (fun _ _ => 0) (fun _ _ => 0) (fun x => x)
                            (fun _ _ => None) one_row w))
                  two_rows [125; 135] fresh_world (0, 0, None) eq_refl)
    as (r' & _ & _ & _ & Hother).
  split; [exact (Hsame eq_refl)|].
  split; [apply Hother; discriminate|].
  apply (proj1 (proj2 (predict_needs_fitted_model unit (fun _ _ => tt)
                         toy_predict (fun _ => [1 # 4; 3 # 4])
                         (fun _ _ => 0) (fun _ _ => 0) (fun x => x)
                         (fun _ _ => None) two_rows fresh_world))).
  reflexivity.
Defined.


Lemma trained_model_survives_save_and_load_witness :
  exists w1 w2 t,
    toy_train_and_save two_rows [125; 135] fresh_world = (inr tt, w1) /\
    Trainer.load unit "models/aqi_model.joblib"
      {| Trainer.self := Trainer.init unit;
         Trainer.files := Trainer.files unit w1 |}
    = (inr true, w2) /\
    Trainer.model unit (Trainer.self unit w2)
    = Some {| Trainer.forest := tt;
              Trainer.feature_names_in_ :=
                ["daily_avg_aqi"%string; "pm2_5_mean"%string] |} /\
    Trainer.feature_importance unit (Trainer.self unit w2) = Some t /\
    Permutation t [("daily_avg_aqi"%string, 1 # 4);
                   ("pm2_5_mean"%string, 3 # 4)] /\
    Sorted by_importance_desc t.
Proof.
  apply (trained_model_survives_save_and_load unit (fun _ _ => tt)
           toy_predict (fun _ => [1 # 4; 3 # 4]) (fun _ _ => 0)
           (fun _ _ => 0) (fun x => x) (fun _ _ => None) dump_allowed
           two_rows [125; 135] fresh_world).
  - simpl. lia.
  - reflexivity.
  - reflexivity.
  - reflexivity.
Defined.
